(** * homework_bot: a shallow embedding of [homework.py]

    The bot polls the review API, validates the decoded answer, picks the
    most recently updated homework, renders its status and relays status
    changes to a Telegram chat.

    Conventions of the embedding:
    - Python [str] is [string]: the UTF-8 bytes of the text.  Byte-wise
      lexicographic order on UTF-8 coincides with Python's code-point order.
    - A function that may raise returns [result A]; code that performs I/O
      runs in [IO], which threads the record of requests made and of
      messages handed to the bot, and keeps that record when it raises.
    - [logging] calls change neither control flow nor results and are left
      out. *)

From Stdlib Require Import List String Ascii ZArith NArith Bool Lia Arith.
From Stdlib Require Import DecimalString OrderedTypeEx.
Import ListNotations.
Local Open Scope string_scope.
Local Open Scope Z_scope.

Set Implicit Arguments.

(** ** Exceptions *)

Module Exn.

(** The exception classes that can travel through the program: builtins,
    the classes of [requests], and the three classes of the module
    [exceptions]. *)
Inductive exc_class : Type :=
  | BaseException | KeyboardInterrupt | SystemExit
  | Exception | TypeError | ValueError | LookupError | KeyError | IndexError
  | RequestException | ConnectionError | Timeout | JSONDecodeError
  | UnexpectedResponseData | RequestError | MessageNotSent.

Scheme Equality for exc_class.

(** Modelled from the spec: the module [exceptions] (imported as [e]) is
    not among the sources.  Section 7 names its three error kinds,
    [RequestError], [UnexpectedResponseData] and [MessageNotSent]; each is
    taken to be a direct subclass of [Exception] whose [str] is the message
    it was built with. *)
Definition custom_bases : list exc_class := [Exception; BaseException].

(** Method resolution order of each class (the class itself first). *)
Definition mro (c : exc_class) : list exc_class :=
  match c with
  | BaseException => [BaseException]
  | KeyboardInterrupt => [KeyboardInterrupt; BaseException]
  | SystemExit => [SystemExit; BaseException]
  | Exception => [Exception; BaseException]
  | TypeError => [TypeError; Exception; BaseException]
  | ValueError => [ValueError; Exception; BaseException]
  | LookupError => [LookupError; Exception; BaseException]
  | KeyError => [KeyError; LookupError; Exception; BaseException]
  | IndexError => [IndexError; LookupError; Exception; BaseException]
  | RequestException => [RequestException; Exception; BaseException]
  | ConnectionError =>
      [ConnectionError; RequestException; Exception; BaseException]
  | Timeout => [Timeout; RequestException; Exception; BaseException]
  | JSONDecodeError =>
      [JSONDecodeError; RequestException; ValueError; Exception; BaseException]
  | UnexpectedResponseData => UnexpectedResponseData :: custom_bases
  | RequestError => RequestError :: custom_bases
  | MessageNotSent => MessageNotSent :: custom_bases
  end.

Definition issubclass (c d : exc_class) : bool :=
  existsb (exc_class_beq d) (mro c).

(** A raised exception: its class and what [str(error)] gives. *)
Record exn : Type := mk_exn { exn_class : exc_class; exn_str : string }.

Definition isinstance (error : exn) (c : exc_class) : bool :=
  issubclass (exn_class error) c.

(** [except (c1, c2, ...)] *)
Definition isinstance_any (error : exn) (cs : list exc_class) : bool :=
  existsb (isinstance error) cs.

End Exn.
Import Exn.

(** ** The two monads *)

Inductive result (A : Type) : Type :=
  | Ok (a : A)
  | Raise (error : exn).
Arguments Ok {A} a.
Arguments Raise {A} error.

Definition bind {A B : Type} (m : result A) (k : A -> result B) : result B :=
  match m with
  | Ok a => k a
  | Raise error => Raise error
  end.

Declare Scope py_scope.
Delimit Scope py_scope with py.
Notation "x <- m ;; k" := (bind m (fun x => k))
  (at level 61, m at next level, right associativity) : py_scope.
Notation "m ;; k" := (bind m (fun _ => k))
  (at level 61, right associativity) : py_scope.
Local Open Scope py_scope.

Fixpoint mapM {A B : Type} (f : A -> result B) (l : list A) : result (list B) :=
  match l with
  | [] => Ok []
  | x :: t => y <- f x ;; ys <- mapM f t ;; Ok (y :: ys)
  end.

(** ** Text helpers *)

Definition dquote : string := String "034"%char EmptyString.
Definition squote : string := String "039"%char EmptyString.

(** [str(n)] of an [int]. *)
Definition str_of_int (n : Z) : string := NilZero.string_of_int (Z.to_int n).

(** [repr(s)] of a [str] free of quotes, backslashes and unprintable
    characters, which is the case of every message the program builds. *)
Definition repr_str (s : string) : string := squote ++ s ++ squote.

(** [needle in hay] on [str]. *)
Fixpoint str_contains (needle hay : string) : bool :=
  match hay with
  | EmptyString => String.prefix needle hay
  | String _ rest => String.prefix needle hay || str_contains needle rest
  end.

(** Exceptions as the program builds them.  [str] of a [KeyError] is the
    [repr] of its argument; of the others, the argument itself. *)
Definition mkTypeError (msg : string) : exn := mk_exn TypeError msg.
Definition mkKeyError (msg : string) : exn := mk_exn KeyError (repr_str msg).
Definition mkValueError (msg : string) : exn := mk_exn ValueError msg.
Definition mkIndexError (msg : string) : exn := mk_exn IndexError msg.
Definition mkRequestError (msg : string) : exn := mk_exn RequestError msg.
Definition mkUnexpectedResponseData (msg : string) : exn :=
  mk_exn UnexpectedResponseData msg.
Definition mkMessageNotSent (msg : string) : exn := mk_exn MessageNotSent msg.

(** ** Configuration *)

(** [os.getenv] gives [None] or a [str]. *)
Record config : Type := mk_config {
  TELEGRAM_TOKEN : option string;
  PRACTICUM_TOKEN : option string;
  TELEGRAM_CHAT_ID : option string
}.

(** Truth value of an [Optional[str]]. *)
Definition truthy (v : option string) : bool :=
  match v with
  | None => false
  | Some EmptyString => false
  | Some (String _ _) => true
  end.

(** [all(iterable)] *)
Definition all (l : list bool) : bool := forallb (fun b => b) l.

Definition check_tokens (cfg : config) : bool :=
  all [truthy (TELEGRAM_TOKEN cfg); truthy (PRACTICUM_TOKEN cfg);
       truthy (TELEGRAM_CHAT_ID cfg)].

Definition present (v : option string) : Prop :=
  exists s, v = Some s /\ s <> EmptyString.


(** ** Decoded JSON *)

(** What [response.json()] can return.  A [float] is kept as the 64 bits of
    its IEEE-754 representation; the program never computes with one.  A
    [dict] decoded from JSON has [str] keys and keeps insertion order. *)
#[warnings="-register-all"]
Inductive pyobj : Type :=
  | PyNone
  | PyBool (b : bool)
  | PyInt (n : Z)
  | PyFloat (bits : Z)
  | PyStr (s : string)
  | PyList (l : list pyobj)
  | PyDict (d : list (string * pyobj)).

Definition dict : Type := list (string * pyobj).

Fixpoint dict_get (d : dict) (key : string) : option pyobj :=
  match d with
  | [] => None
  | (k, v) :: rest => if (k =? key)%string then Some v else dict_get rest key
  end.

Definition dict_has (d : dict) (key : string) : bool :=
  match dict_get d key with Some _ => true | None => false end.

(** [type(x).__name__] *)
Definition type_name (x : pyobj) : string :=
  match x with
  | PyNone => "NoneType"
  | PyBool _ => "bool"
  | PyInt _ => "int"
  | PyFloat _ => "float"
  | PyStr _ => "str"
  | PyList _ => "list"
  | PyDict _ => "dict"
  end.

Definition isinstance_dict (x : pyobj) : bool :=
  match x with PyDict _ => true | _ => false end.

Definition isinstance_list (x : pyobj) : bool :=
  match x with PyList _ => true | _ => false end.

(** [key in container] for a [str] key: membership among the keys of a
    [dict], among the elements of a [list], substring test on a [str]; the
    other types are no containers. *)
Definition py_contains (key : string) (container : pyobj) : result bool :=
  match container with
  | PyDict d => Ok (dict_has d key)
  | PyList l =>
      Ok (existsb (fun x => match x with
                            | PyStr s => (s =? key)%string
                            | _ => false
                            end) l)
  | PyStr s => Ok (str_contains key s)
  | _ => Raise (mkTypeError ("argument of type " ++ squote
                             ++ type_name container ++ squote
                             ++ " is not iterable"))
  end.

(** [container[key]] for a [str] key. *)
Definition py_getitem (container : pyobj) (key : string) : result pyobj :=
  match container with
  | PyDict d =>
      match dict_get d key with
      | Some v => Ok v
      | None => Raise (mkKeyError key)
      end
  | PyList _ =>
      Raise (mkTypeError "list indices must be integers or slices, not str")
  | PyStr _ => Raise (mkTypeError "string indices must be integers")
  | _ => Raise (mkTypeError (squote ++ type_name container ++ squote
                             ++ " object is not subscriptable"))
  end.

(** The code points of a [str], each as a [str] of its own: a new
    character starts at every byte that is no UTF-8 continuation byte. *)
Definition is_continuation (c : ascii) : bool :=
  let n := N_of_ascii c in (128 <=? n)%N && (n <? 192)%N.

Fixpoint utf8_split (s : string) : string * list string :=
  match s with
  | EmptyString => (EmptyString, [])
  | String c rest =>
      let '(pending, chars) := utf8_split rest in
      if is_continuation c then (String c pending, chars)
      else (EmptyString, String c pending :: chars)
  end.

Definition utf8_chars (s : string) : list string :=
  let '(pending, chars) := utf8_split s in
  match pending with
  | EmptyString => chars
  | _ => pending :: chars
  end.

(** [iter(x)]: what a [for] loop or [sorted] goes through. *)
Definition py_iter (x : pyobj) : result (list pyobj) :=
  match x with
  | PyList l => Ok l
  | PyDict d => Ok (map (fun kv => PyStr (fst kv)) d)
  | PyStr s => Ok (map PyStr (utf8_chars s))
  | _ => Raise (mkTypeError (squote ++ type_name x ++ squote
                             ++ " object is not iterable"))
  end.

(** Truth value, as [not x] tests it. *)
Definition py_truth (x : pyobj) : bool :=
  match x with
  | PyNone => false
  | PyBool b => b
  | PyInt n => negb (n =? 0)
  | PyFloat bits => negb (Z.land bits (Z.ones 63) =? 0)
  | PyStr s => negb (s =? EmptyString)%string
  | PyList l => match l with [] => false | _ => true end
  | PyDict d => match d with [] => false | _ => true end
  end.

(** [l[0]] on a list. *)
Definition list_first {A : Type} (l : list A) : result A :=
  match l with
  | x :: _ => Ok x
  | [] => Raise (mkIndexError "list index out of range")
  end.

(** ** [http.HTTPStatus] *)

Record http_status : Type := mk_status { value : Z; phrase : string }.

(** The members of the enumeration (CPython 3.9 to 3.12). *)
Definition HTTPStatus_members : list (Z * string) :=
  [ (100, "Continue"); (101, "Switching Protocols"); (102, "Processing");
    (103, "Early Hints");
    (200, "OK"); (201, "Created"); (202, "Accepted");
    (203, "Non-Authoritative Information"); (204, "No Content");
    (205, "Reset Content"); (206, "Partial Content"); (207, "Multi-Status");
    (208, "Already Reported"); (226, "IM Used");
    (300, "Multiple Choices"); (301, "Moved Permanently"); (302, "Found");
    (303, "See Other"); (304, "Not Modified"); (305, "Use Proxy");
    (307, "Temporary Redirect"); (308, "Permanent Redirect");
    (400, "Bad Request"); (401, "Unauthorized"); (402, "Payment Required");
    (403, "Forbidden"); (404, "Not Found"); (405, "Method Not Allowed");
    (406, "Not Acceptable"); (407, "Proxy Authentication Required");
    (408, "Request Timeout"); (409, "Conflict"); (410, "Gone");
    (411, "Length Required"); (412, "Precondition Failed");
    (413, "Request Entity Too Large"); (414, "Request-URI Too Long");
    (415, "Unsupported Media Type");
    (416, "Requested Range Not Satisfiable"); (417, "Expectation Failed");
    (418, "I'm a Teapot"); (421, "Misdirected Request");
    (422, "Unprocessable Entity"); (423, "Locked");
    (424, "Failed Dependency"); (425, "Too Early");
    (426, "Upgrade Required"); (428, "Precondition Required");
    (429, "Too Many Requests"); (431, "Request Header Fields Too Large");
    (451, "Unavailable For Legal Reasons");
    (500, "Internal Server Error"); (501, "Not Implemented");
    (502, "Bad Gateway"); (503, "Service Unavailable");
    (504, "Gateway Timeout"); (505, "HTTP Version Not Supported");
    (506, "Variant Also Negotiates"); (507, "Insufficient Storage");
    (508, "Loop Detected"); (510, "Not Extended");
    (511, "Network Authentication Required") ].

Fixpoint status_phrase (members : list (Z * string)) (code : Z)
    : option string :=
  match members with
  | [] => None
  | (v, p) :: rest => if v =? code then Some p else status_phrase rest code
  end.

(** [HTTPStatus(value=code)]: the member, or [ValueError]. *)
Definition HTTPStatus (code : Z) : result http_status :=
  match status_phrase HTTPStatus_members code with
  | Some p => Ok (mk_status code p)
  | None =>
      Raise (mkValueError (str_of_int code ++ " is not a valid HTTPStatus"))
  end.

Definition HTTPStatus_OK : http_status := mk_status 200 "OK".

Definition status_eqb (a b : http_status) : bool := value a =? value b.

(** ** The outside world and the [IO] monad *)

(** A [requests.Response]: the two attributes the program reads and the
    outcome of its [json()] method. *)
Record Response : Type := mk_response {
  status_code : Z;
  text : string;
  json : result pyobj
}.

(** Keyword arguments of [requests.get]. *)
Record request_params : Type := mk_params {
  url : string;
  headers : list (string * string);
  timeout : Z;
  params : list (string * Z)
}.

(** The environment: what the [k]-th call of [requests.get] and the [k]-th
    call of [bot.send_message] do, and whether [TeleBot(token=...)] accepts
    the token it is given. *)
Record world : Type := mk_world {
  requests_get : nat -> request_params -> result Response;
  bot_send_message : nat -> option string -> string -> result unit;
  TeleBot : option string -> result unit
}.

(** What has happened so far: how many requests went out, every text
    handed to [bot.send_message], oldest first, with whether the call
    returned, and the seconds spent in [time.sleep]. *)
Record io_state : Type := mk_io {
  requests_made : nat;
  sent : list (string * bool);
  slept : Z
}.

Definition IO (A : Type) : Type := io_state -> result A * io_state.

Definition retIO {A : Type} (a : A) : IO A := fun st => (Ok a, st).
Definition raiseIO {A : Type} (error : exn) : IO A :=
  fun st => (Raise error, st).
Definition liftIO {A : Type} (m : result A) : IO A := fun st => (m, st).

Definition bindIO {A B : Type} (m : IO A) (k : A -> IO B) : IO B :=
  fun st =>
    match m st with
    | (Ok a, st') => k a st'
    | (Raise error, st') => (Raise error, st')
    end.

Notation "x <-- m ;; k" := (bindIO m (fun x => k))
  (at level 61, m at next level, right associativity) : py_scope.

(** One [except classes as error: handler] clause. *)
Definition clause (A : Type) : Type := (list exc_class * (exn -> IO A))%type.

Fixpoint select_clause {A : Type} (error : exn) (clauses : list (clause A))
    : option (exn -> IO A) :=
  match clauses with
  | [] => None
  | (classes, handler) :: rest =>
      if isinstance_any error classes then Some handler
      else select_clause error rest
  end.

(** [try: m  except ...: ...  except ...: ...]: the first clause that
    matches handles the exception; with none, it propagates. *)
Definition try_exceptIO {A : Type} (m : IO A) (clauses : list (clause A))
    : IO A :=
  fun st =>
    match m st with
    | (Ok a, st') => (Ok a, st')
    | (Raise error, st') =>
        match select_clause error clauses with
        | Some handler => handler error st'
        | None => (Raise error, st')
        end
    end.

Definition is_ok {A : Type} (m : result A) : bool :=
  match m with Ok _ => true | Raise _ => false end.

(** The record once one more request has gone out. *)
Definition after_request (st : io_state) : io_state :=
  mk_io (S (requests_made st)) (sent st) (slept st).

Definition io_requests_get (w : world) (p : request_params) : IO Response :=
  fun st => (requests_get w (requests_made st) p, after_request st).

Definition io_bot_send_message (w : world) (chat_id : option string)
    (message : string) : IO unit :=
  fun st =>
    let outcome := bot_send_message w (List.length (sent st)) chat_id message in
    (outcome,
     mk_io (requests_made st) (sent st ++ [(message, is_ok outcome)])
           (slept st)).

Definition io_sleep (seconds : Z) : IO unit :=
  fun st => (Ok tt, mk_io (requests_made st) (sent st) (slept st + seconds)).

(** ** The API client *)

Definition RETRY_PERIOD : Z := 600.
Definition REQUEST_TIMEOUT_IN_SECONDS : Z := 10.
Definition ENDPOINT : string :=
  "https://practicum.yandex.ru/api/user_api/homework_statuses/".

(** [f"{x}"] of an [Optional[str]]. *)
Definition str_of_optional (v : option string) : string :=
  match v with Some s => s | None => "None" end.

Definition HEADERS (cfg : config) : list (string * string) :=
  [("Authorization", "OAuth " ++ str_of_optional (PRACTICUM_TOKEN cfg))].

(** The request the client sends for a given cursor. *)
Definition api_request (cfg : config) (timestamp : Z) : request_params :=
  mk_params ENDPOINT (HEADERS cfg) REQUEST_TIMEOUT_IN_SECONDS
            [("from_date", timestamp)].

Definition get_api_answer (cfg : config) (w : world) (timestamp : Z)
    : IO pyobj :=
  response <--
    try_exceptIO
      (let request_params := api_request cfg timestamp in
       io_requests_get w request_params)
      [([RequestException],
        fun error =>
          raiseIO (mkRequestError
                     ("Ошибка при совершении запроса к API: "
                      ++ exn_str error)))] ;;
  status <-- liftIO (HTTPStatus (status_code response)) ;;
  if negb (status_eqb status HTTPStatus_OK) then
    raiseIO (mkRequestError
               ("Статус ответа: " ++ str_of_int (value status) ++ " "
                ++ phrase status ++ ". "
                ++ "Полный текст: " ++ text response))
  else
    result <--
      try_exceptIO
        (liftIO (json response))
        [([ValueError],
          fun error =>
            raiseIO (mkUnexpectedResponseData
                       ("Не удалось распарсить ответ: " ++ exn_str error)))] ;;
    retIO result.

(** ** The response validator *)

Definition check_response (response : pyobj) : result unit :=
  if negb (isinstance_dict response) then
    Raise (mkTypeError "Тип данных ответа отличается от dict")
  else
    found <- py_contains "homeworks" response ;;
    if negb found then
      Raise (mkKeyError "В ответе отсутствует ключ со списком работ")
    else
      homeworks <- py_getitem response "homeworks" ;;
      if negb (isinstance_list homeworks) then
        Raise (mkTypeError "Тип данных списка работ отличается от list")
      else
        homeworks <- py_getitem response "homeworks" ;;
        if negb (py_truth homeworks) then
          Raise (mkUnexpectedResponseData
                   ("API вернула пустой список домашних работ: "
                    ++ "ни одна работа пока не взята на проверку"))
        else Ok tt.

(** ** The status resolver *)

Definition HOMEWORK_VERDICTS : list (string * string) :=
  [ ("reviewing", "Работа взята на проверку ревьюером.");
    ("rejected", "Работа проверена: у ревьюера есть замечания.");
    ("approved", "Работа проверена: ревьюеру всё понравилось. Ура!") ].

Fixpoint verdict_of (verdicts : list (string * string)) (status : string)
    : option string :=
  match verdicts with
  | [] => None
  | (k, v) :: rest =>
      if (k =? status)%string then Some v else verdict_of rest status
  end.

(** [hash(x)] succeeds on everything JSON decodes to, except [list] and
    [dict]. *)
Definition py_hashable (x : pyobj) : result unit :=
  match x with
  | PyList _ | PyDict _ =>
      Raise (mkTypeError
               ("unhashable type: " ++ squote ++ type_name x ++ squote))
  | _ => Ok tt
  end.

(** [key in HOMEWORK_VERDICTS]: the key is hashed, and only a [str] can
    equal one of the keys. *)
Definition verdicts_contains (key : pyobj) : result bool :=
  py_hashable key ;;
  match key with
  | PyStr s =>
      Ok (match verdict_of HOMEWORK_VERDICTS s with
          | Some _ => true
          | None => false
          end)
  | _ => Ok false
  end.

(** [for x in items: body x] *)
Fixpoint for_each {A : Type} (items : list A) (body : A -> result unit)
    : result unit :=
  match items with
  | [] => Ok tt
  | x :: rest => body x ;; for_each rest body
  end.

(** The body of the loop of [get_latest_homework]. *)
Definition check_date (homework : pyobj) : result unit :=
  found <- py_contains "date_updated" homework ;;
  if negb found then
    Raise (mkKeyError "Не у всех работ указана дата обновления")
  else Ok tt.

Section Builtins.

(** Two builtins are taken as given: [a < b] on decoded JSON, [None] where
    Python answers [NotImplemented] on both sides, and [str(x)] as an
    f-string renders a value. *)
Variable py_lt : pyobj -> pyobj -> option bool.
Variable py_str : pyobj -> string.

Definition py_less (a b : pyobj) : result bool :=
  match py_lt a b with
  | Some r => Ok r
  | None =>
      Raise (mkTypeError
               ("'<' not supported between instances of "
                ++ squote ++ type_name a ++ squote ++ " and "
                ++ squote ++ type_name b ++ squote))
  end.

(** [HOMEWORK_VERDICTS[key]] *)
Definition verdicts_getitem (key : pyobj) : result string :=
  py_hashable key ;;
  match key with
  | PyStr s =>
      match verdict_of HOMEWORK_VERDICTS s with
      | Some v => Ok v
      | None => Raise (mkKeyError s)
      end
  | _ => Raise (mk_exn KeyError (py_str key))
  end.

(** [list.sort] is stable and compares keys with [<] alone.  It is
    rendered as an insertion sort: an element goes in front of the first
    one that is not below it, so that among equal keys the earlier stays
    first.  Any stable sort gives the same list where [<] is a strict
    total order on the keys. *)
Fixpoint insert_keyed (x : pyobj * pyobj) (l : list (pyobj * pyobj))
    : result (list (pyobj * pyobj)) :=
  match l with
  | [] => Ok [x]
  | y :: rest =>
      below <- py_less (fst y) (fst x) ;;
      if below then (rest' <- insert_keyed x rest ;; Ok (y :: rest'))
      else Ok (x :: y :: rest)
  end.

Fixpoint stable_sort (l : list (pyobj * pyobj))
    : result (list (pyobj * pyobj)) :=
  match l with
  | [] => Ok []
  | x :: rest => s <- stable_sort rest ;; insert_keyed x s
  end.

(** [sorted(iterable, key=key, reverse=reverse)]: the keys are computed
    first, one per element; with [reverse] the list is reversed before and
    after the sort, which keeps equal keys in their original order. *)
Definition sorted (iterable : pyobj) (key : pyobj -> result pyobj)
    (reverse : bool) : result (list pyobj) :=
  items <- py_iter iterable ;;
  keys <- mapM key items ;;
  let keyed := combine keys items in
  s <- stable_sort (if reverse then rev keyed else keyed) ;;
  Ok (map snd (if reverse then rev s else s)).

Definition get_latest_homework (response : pyobj) : result pyobj :=
  homeworks <- py_getitem response "homeworks" ;;
  items <- py_iter homeworks ;;
  for_each items check_date ;;
  homeworks <- py_getitem response "homeworks" ;;
  ordered <- sorted homeworks
               (fun homework => py_getitem homework "date_updated") true ;;
  list_first ordered.

Definition parse_status (homework : pyobj) : result string :=
  found <- py_contains "homework_name" homework ;;
  if negb found then
    Raise (mkKeyError "У домашней работы отсутствет название")
  else
    found <- py_contains "status" homework ;;
    if negb found then
      Raise (mkKeyError "У домашней работы отсутствет статус")
    else
      status <- py_getitem homework "status" ;;
      known <- verdicts_contains status ;;
      if negb known then
        Raise (mkKeyError "Домашняя работа содержит неизвестный статус")
      else
        homework_name <- py_getitem homework "homework_name" ;;
        status <- py_getitem homework "status" ;;
        verdict <- verdicts_getitem status ;;
        Ok ("Изменился статус проверки работы " ++ dquote
            ++ py_str homework_name ++ dquote ++ ". " ++ verdict).

(** ** The notifier *)

Definition send_message (cfg : config) (w : world) (message : string)
    : IO unit :=
  try_exceptIO
    (io_bot_send_message w (TELEGRAM_CHAT_ID cfg) message)
    [([Exception],
      fun error =>
        raiseIO (mkMessageNotSent ("Ошибка при отправке: " ++ exn_str error)))].

(** ** The main loop *)

(** The body of the first [try] of the loop. *)
Definition poll_status (cfg : config) (w : world) : IO string :=
  response <-- get_api_answer cfg w 0 ;;
  _ <-- liftIO (check_response response) ;;
  homework <-- liftIO (get_latest_homework response) ;;
  current_status <-- liftIO (parse_status homework) ;;
  retIO current_status.

(** The first [try] with its handlers: the status of this cycle. *)
Definition compute_status (cfg : config) (w : world) : IO string :=
  try_exceptIO
    (poll_status cfg w)
    [([UnexpectedResponseData; RequestError; TypeError; KeyError],
      fun error => retIO ("Технические неполадки: " ++ exn_str error));
     ([Exception],
      fun error => retIO ("Неизвестный сбой в работе: " ++ exn_str error))].

(** The comparison with [previous_status] and the second [try]: what
    [current_status] holds when the cycle assigns it to [previous_status]. *)
Definition notify (cfg : config) (w : world)
    (previous_status current_status : string) : IO string :=
  if (current_status =? previous_status)%string then retIO current_status
  else
    try_exceptIO
      (_ <-- send_message cfg w current_status ;; retIO current_status)
      [([MessageNotSent],
        fun error =>
          retIO ("Не удалось отправить сообщение: " ++ exn_str error));
       ([Exception],
        fun error => retIO ("Неизвестный сбой в работе: " ++ exn_str error))].

(** One turn of [while True]; the result is the new [previous_status]. *)
Definition cycle (cfg : config) (w : world) (previous_status : string)
    : IO string :=
  current_status <-- compute_status cfg w ;;
  current_status <-- notify cfg w previous_status current_status ;;
  _ <-- io_sleep RETRY_PERIOD ;;
  retIO current_status.

(** [n] turns of the loop. *)
Fixpoint loop (cfg : config) (w : world) (n : nat) (previous_status : string)
    : IO string :=
  match n with
  | O => retIO previous_status
  | S k => s <-- cycle cfg w previous_status ;; loop cfg w k s
  end.

(** [sys.exit(message)] raises [SystemExit]. *)
Definition sys_exit {A : Type} (message : string) : IO A :=
  raiseIO (mk_exn SystemExit message).

(** [main], observed after [n] turns of its loop: [Ok previous_status]
    while it is running, [Raise] once an exception has left it. *)
Definition main (cfg : config) (w : world) (n : nat) : IO string :=
  if negb (check_tokens cfg) then
    let message := "Не все переменные окружения доступны" in
    sys_exit message
  else
    bot <-- liftIO (TeleBot w (TELEGRAM_TOKEN cfg)) ;;
    let previous_status := EmptyString in
    loop cfg w n previous_status.

End Builtins.

Definition initial : io_state := mk_io 0 [] 0.

(** Number of calls of [bot.send_message] between two states. *)
Definition attempts (before after : io_state) : nat :=
  (List.length (sent after) - List.length (sent before))%nat.

(** An outcome that, if it is an exception, is an instance of
    [Exception]: an error, not an interrupt or an exit request. *)
Definition only_errors {A : Type} (m : result A) : Prop :=
  match m with
  | Ok _ => True
  | Raise error => isinstance error Exception = true
  end.

(** A world in which [requests.get], [response.json()] and
    [bot.send_message] fail with errors only: nobody interrupts the
    process from outside. *)
Definition undisturbed (w : world) : Prop :=
  (forall k p,
     only_errors (requests_get w k p)
     /\ forall r, requests_get w k p = Ok r -> only_errors (json r))
  /\ (forall k chat_id message,
        only_errors (bot_send_message w k chat_id message)).

(** The same for a computation in [IO], from every state. *)
Definition only_errorsIO {A : Type} (m : IO A) : Prop :=
  forall st, only_errors (fst (m st)).

(** The record once the process has slept. *)
Definition after_sleep (seconds : Z) (st : io_state) : io_state :=
  mk_io (requests_made st) (sent st) (slept st + seconds).

(** The record once [message] has been handed to the bot. *)
Definition after_send (message : string) (delivered : bool) (st : io_state)
    : io_state :=
  mk_io (requests_made st) (sent st ++ [(message, delivered)]) (slept st).

(** What the handlers of the first [try] make of the outcome of its
    body. *)
Definition status_of_outcome (outcome : result string) : result string :=
  match outcome with
  | Ok current_status => Ok current_status
  | Raise error =>
      if isinstance_any error
           [UnexpectedResponseData; RequestError; TypeError; KeyError]
      then Ok ("Технические неполадки: " ++ exn_str error)
      else if isinstance error Exception
      then Ok ("Неизвестный сбой в работе: " ++ exn_str error)
      else Raise error
  end.

(** The text [previous_status] holds after a notification that failed
    with [error]. *)
Definition failure_status (error : exn) : string :=
  "Не удалось отправить сообщение: "
  ++ exn_str (mkMessageNotSent ("Ошибка при отправке: " ++ exn_str error)).

(** A text that starts the way a failure status does. *)
Definition is_failure_status (s : string) : bool :=
  String.prefix "Не удалось отправить сообщение: " s.

(** ** Reading a homework item *)

(** The phrase of the vocabulary for a status value, if it has one. *)
Definition verdict_for (status : pyobj) : option string :=
  match status with
  | PyStr s => verdict_of HOMEWORK_VERDICTS s
  | _ => None
  end.


(** The [date_updated] of an item that is a [dict] holding a [str] there. *)
Definition date_updated (homework : pyobj) : option string :=
  match homework with
  | PyDict d =>
      match dict_get d "date_updated" with
      | Some (PyStr s) => Some s
      | _ => None
      end
  | _ => None
  end.

Definition date_key (homework : pyobj) : string :=
  match date_updated homework with Some s => s | None => EmptyString end.

(** An item that is a [dict] without the key [date_updated]. *)
Definition lacks_date (homework : pyobj) : Prop :=
  exists d, homework = PyDict d /\ dict_get d "date_updated" = None.

(** An item that carries a [str] under [date_updated]. *)
Definition dated (homework : pyobj) : Prop :=
  exists s, date_updated homework = Some s.

(** An item paired with its sort key. *)
Definition keyed (homework : pyobj) : pyobj * pyobj :=
  (PyStr (date_key homework), homework).

(** The same insertion sort on keys that are known to be [str]. *)
Section SortByStr.
Variable A : Type.
Variable key : A -> string.

Fixpoint insert_by (x : A) (l : list A) : list A :=
  match l with
  | [] => [x]
  | y :: rest =>
      if (key y <? key x)%string then y :: insert_by x rest
      else x :: y :: rest
  end.

Fixpoint sort_by (l : list A) : list A :=
  match l with
  | [] => []
  | x :: rest => insert_by x (sort_by rest)
  end.

End SortByStr.

(** ** A concrete instance of the builtins

    Enough of [<] and [str] to run the program on data: [<] between two
    [str] (code-point order) and between two [int]; [str] of a [str], an
    [int], a [bool] and [None].  A [float] or a container is rendered by
    its type name in angle brackets, which is not what Python prints. *)
Definition sample_lt (a b : pyobj) : option bool :=
  match a, b with
  | PyStr x, PyStr y => Some (x <? y)%string
  | PyInt x, PyInt y => Some (x <? y)
  | _, _ => None
  end.

Definition sample_str (x : pyobj) : string :=
  match x with
  | PyStr s => s
  | PyInt n => str_of_int n
  | PyBool true => "True"
  | PyBool false => "False"
  | PyNone => "None"
  | _ => "<" ++ type_name x ++ ">"
  end.

(** ** Sample data *)

Definition sample_cfg : config :=
  mk_config (Some "123:abc") (Some "y0_token") (Some "42").

Definition homework_item (name date status : string) : pyobj :=
  PyDict [("homework_name", PyStr name); ("status", PyStr status);
          ("date_updated", PyStr date)].

Definition hw1 : pyobj := homework_item "hw1" "2023-01-01" "approved".
Definition hw2 : pyobj := homework_item "hw2" "2023-02-01" "rejected".
Definition hw3 : pyobj := homework_item "hw3" "2023-02-01" "reviewing".

Definition sample_answer : pyobj :=
  PyDict [("homeworks", PyList [hw1; hw2; hw3])].

(** A server that always answers with the given status, body and decoded
    JSON, and a bot that delivers everything. *)
Definition steady_world (code : Z) (body : string) (decoded : result pyobj)
    : world :=
  mk_world (fun _ _ => Ok (mk_response code body decoded))
           (fun _ _ _ => Ok tt)
           (fun _ => Ok tt).

(** The same server, with a bot whose first call fails. *)
Definition flaky_bot_world : world :=
  mk_world (fun _ _ => Ok (mk_response 200 "{...}" (Ok sample_answer)))
           (fun k _ _ =>
              match k with
              | O => Raise (mk_exn Exception "Bad Gateway")
              | S _ => Ok tt
              end)
           (fun _ => Ok tt).

(** The body of an answer that is not JSON, as [response.json()] reports
    it. *)
Definition not_json : result pyobj :=
  Raise (mk_exn JSONDecodeError "Expecting value: line 1 column 1 (char 0)").

(** A server answering with a status code that [HTTPStatus] does not
    list. *)
Definition world_599 : world := steady_world 599 "<html>busy</html>" not_json.

(** A server whose answers are fine. *)
Definition good_world : world := steady_world 200 "{...}" (Ok sample_answer).

(** An answer with an item that has no [date_updated]. *)
Definition undated_item : pyobj :=
  PyDict [("homework_name", PyStr "hw4"); ("status", PyStr "approved")].

Definition undated_answer : pyobj :=
  PyDict [("homeworks", PyList [hw1; undated_item])].

(** An item whose status is a list. *)
Definition unhashable_item : pyobj :=
  PyDict [("homework_name", PyStr "hw1"); ("status", PyList [])].

(** A world in which the process is interrupted during the second
    request. *)
Definition interrupted_world : world :=
  mk_world (fun k _ =>
              match k with
              | S O => Raise (mk_exn KeyboardInterrupt EmptyString)
              | _ => Ok (mk_response 200 "{...}" (Ok sample_answer))
              end)
           (fun _ _ _ => Ok tt)
           (fun _ => Ok tt).

(** The status every turn computes from [sample_answer]. *)
Definition sample_status : string :=
  "Изменился статус проверки работы " ++ dquote ++ "hw2" ++ dquote ++ ". "
  ++ "Работа проверена: у ревьюера есть замечания.".

(** ** Further notions used by the properties below *)

(** The classes the first handler of the loop names. *)
Definition known_classes : list exc_class :=
  [UnexpectedResponseData; RequestError; TypeError; KeyError].

(** An outcome that, if it is an exception, belongs to the known classes. *)
Definition only_known {A : Type} (m : result A) : Prop :=
  match m with
  | Ok _ => True
  | Raise error => isinstance_any error known_classes = true
  end.

(** A network on which every call of [requests.get] raises [error]. *)
Definition failing_world (error : exn) : world :=
  mk_world (fun _ _ => Raise error) (fun _ _ _ => Ok tt) (fun _ => Ok tt).

(** A bot every call of which raises [error], behind a server that is
    fine. *)
Definition failing_bot_world (error : exn) : world :=
  mk_world (fun _ _ => Ok (mk_response 200 "{...}" (Ok sample_answer)))
           (fun _ _ _ => Raise error)
           (fun _ => Ok tt).

(** An item that is a [dict] with something under [date_updated]. *)
Definition has_date (homework : pyobj) : Prop :=
  exists d v, homework = PyDict d /\ dict_get d "date_updated" = Some v.

(** A situation in which every turn computes the status [s]. *)
Definition steady (py_lt : pyobj -> pyobj -> option bool)
    (py_str : pyobj -> string) (cfg : config) (w : world) (s : string)
    : Prop :=
  forall st, fst (compute_status py_lt py_str cfg w st) = Ok s.

(** A bot that delivers the text [s] whenever it is asked to. *)
Definition delivers (cfg : config) (w : world) (s : string) : Prop :=
  forall k, bot_send_message w k (TELEGRAM_CHAT_ID cfg) s = Ok tt.

(** ** More sample data *)

Definition timed_out : exn := mk_exn Timeout "Read timed out.".

Definition interrupt : exn := mk_exn KeyboardInterrupt EmptyString.

Definition undecodable : exn :=
  mk_exn JSONDecodeError "Expecting value: line 1 column 1 (char 0)".

(** A server whose 200 answers are no JSON. *)
Definition bad_body_world : world := steady_world 200 "<html>" not_json.

(** An answer without homeworks, and a server that gives it. *)
Definition empty_answer : dict := [("homeworks", PyList [])].

Definition empty_world : world :=
  steady_world 200 "{...}" (Ok (PyDict empty_answer)).

(** A single homework dated by a number. *)
Definition numbered_item : dict :=
  [("homework_name", PyStr "hw5"); ("status", PyStr "reviewing");
   ("date_updated", PyInt 1700000000)].

Definition single_answer : dict := [("homeworks", PyList [PyDict numbered_item])].

(** Two homeworks, one of them without a date value. *)
Definition dateless_item : dict :=
  [("homework_name", PyStr "hw6"); ("status", PyStr "reviewing");
   ("date_updated", PyNone)].

Definition dated_item : dict :=
  [("homework_name", PyStr "hw1"); ("status", PyStr "approved");
   ("date_updated", PyStr "2023-01-01")].

Definition mixed_answer : dict :=
  [("homeworks", PyList [PyDict dated_item; PyDict dateless_item])].

(** The text rendered for [hw1]. *)
Definition hw1_status : string :=
  "Изменился статус проверки работы " ++ dquote ++ "hw1" ++ dquote ++ ". "
  ++ "Работа проверена: ревьюеру всё понравилось. Ура!".

(** A configuration with all three values present, whose bot token has no
    colon, and a world whose [TeleBot] refuses such a token. *)
Definition colonless_cfg : config :=
  mk_config (Some "abc") (Some "y0_token") (Some "42").

Definition picky_world : world :=
  mk_world (fun _ _ => Ok (mk_response 200 "{...}" (Ok sample_answer)))
           (fun _ _ _ => Ok tt)
           (fun token =>
              if str_contains ":" (str_of_optional token) then Ok tt
              else Raise (mkValueError "Token must contain a colon")).

(** A world in which the first request times out, the second answer has
    status 599, the later ones are fine, and the first call of the bot
    fails. *)
Definition stormy_world : world :=
  mk_world (fun k _ =>
              match k with
              | O => Raise timed_out
              | S O => Ok (mk_response 599 "<html>busy</html>" not_json)
              | _ => Ok (mk_response 200 "{...}" (Ok sample_answer))
              end)
           (fun k _ _ =>
              match k with
              | O => Raise (mk_exn Exception "Bad Gateway")
              | S _ => Ok tt
              end)
           (fun _ => Ok tt).

(** * Properties *)

(** ** Configuration *)

Lemma truthy_present (v : option string) : truthy v = true <-> present v.
Proof.
  unfold present; split.
  - destruct v as [[|c s]|]; simpl; try discriminate.
    intros _. exists (String c s). split; [reflexivity | discriminate].
  - intros (s & -> & Hs). destruct s; [contradiction | reflexivity].
Qed.

(** C9: [check_tokens] is true exactly when the three values are all
    present and non-empty; as soon as one of them is unset or empty the
    result is false. *)
Theorem check_tokens_iff (cfg : config) :
  (check_tokens cfg = true <->
     present (TELEGRAM_TOKEN cfg) /\ present (PRACTICUM_TOKEN cfg)
     /\ present (TELEGRAM_CHAT_ID cfg))
  /\ (check_tokens cfg = false <->
     ~ present (TELEGRAM_TOKEN cfg) \/ ~ present (PRACTICUM_TOKEN cfg)
     \/ ~ present (TELEGRAM_CHAT_ID cfg)).
Proof.
  unfold check_tokens, all; simpl.
  rewrite <- !truthy_present.
  destruct (truthy (TELEGRAM_TOKEN cfg)), (truthy (PRACTICUM_TOKEN cfg)),
    (truthy (TELEGRAM_CHAT_ID cfg)); simpl; intuition congruence.
Qed.

(** ** The API client *)

Section ApiClient.

Variables (cfg : config) (w : world) (timestamp : Z) (st : io_state).

(** Whatever happens, exactly one request goes out, and nothing else
    changes. *)
Lemma get_api_answer_state :
  snd (get_api_answer cfg w timestamp st) = after_request st.
Proof.
  unfold get_api_answer, bindIO, try_exceptIO, io_requests_get, liftIO,
    raiseIO, retIO.
  cbn [select_clause].
  destruct (requests_get w (requests_made st) (api_request cfg timestamp))
    as [r|error].
  - destruct (HTTPStatus (status_code r)) as [status|error]; [|reflexivity].
    destruct (negb (status_eqb status HTTPStatus_OK)); [reflexivity|].
    destruct (json r) as [j|error]; [reflexivity|].
    destruct (isinstance_any error [ValueError]); reflexivity.
  - destruct (isinstance_any error [RequestException]); reflexivity.
Qed.

Lemma get_api_answer_transport (error : exn) :
  requests_get w (requests_made st) (api_request cfg timestamp) = Raise error ->
  isinstance error RequestException = true ->
  get_api_answer cfg w timestamp st
  = (Raise (mkRequestError
              ("Ошибка при совершении запроса к API: " ++ exn_str error)),
     after_request st).
Proof.
  intros Hget Hcls.
  unfold get_api_answer, bindIO, try_exceptIO, io_requests_get.
  rewrite Hget. cbn [select_clause isinstance_any existsb].
  rewrite Hcls. reflexivity.
Qed.

Lemma HTTPStatus_member (code : Z) (p : string) :
  status_phrase HTTPStatus_members code = Some p ->
  HTTPStatus code = Ok (mk_status code p).
Proof. unfold HTTPStatus. intros ->. reflexivity. Qed.

Lemma HTTPStatus_unregistered (code : Z) :
  status_phrase HTTPStatus_members code = None ->
  HTTPStatus code
  = Raise (mkValueError (str_of_int code ++ " is not a valid HTTPStatus")).
Proof. unfold HTTPStatus. intros ->. reflexivity. Qed.

Lemma get_api_answer_bad_status (r : Response) (p : string) :
  requests_get w (requests_made st) (api_request cfg timestamp) = Ok r ->
  status_phrase HTTPStatus_members (status_code r) = Some p ->
  status_code r <> 200 ->
  get_api_answer cfg w timestamp st
  = (Raise (mkRequestError
              ("Статус ответа: " ++ str_of_int (status_code r) ++ " " ++ p
               ++ ". " ++ "Полный текст: " ++ text r)),
     after_request st).
Proof.
  intros Hget Hp Hcode.
  unfold get_api_answer, bindIO, try_exceptIO, io_requests_get, liftIO.
  rewrite Hget, (HTTPStatus_member _ Hp).
  unfold status_eqb; cbn [value phrase HTTPStatus_OK].
  apply Z.eqb_neq in Hcode. rewrite Hcode. reflexivity.
Qed.

Lemma get_api_answer_unregistered (r : Response) :
  requests_get w (requests_made st) (api_request cfg timestamp) = Ok r ->
  status_phrase HTTPStatus_members (status_code r) = None ->
  get_api_answer cfg w timestamp st
  = (Raise (mkValueError
              (str_of_int (status_code r) ++ " is not a valid HTTPStatus")),
     after_request st).
Proof.
  intros Hget Hp.
  unfold get_api_answer, bindIO, try_exceptIO, io_requests_get, liftIO.
  rewrite Hget, (HTTPStatus_unregistered _ Hp). reflexivity.
Qed.

Lemma get_api_answer_ok_status (r : Response) :
  requests_get w (requests_made st) (api_request cfg timestamp) = Ok r ->
  status_code r = 200 ->
  get_api_answer cfg w timestamp st
  = (match json r with
     | Ok decoded => Ok decoded
     | Raise error =>
         if isinstance error ValueError then
           Raise (mkUnexpectedResponseData
                    ("Не удалось распарсить ответ: " ++ exn_str error))
         else Raise error
     end, after_request st).
Proof.
  intros Hget Hcode.
  unfold get_api_answer, bindIO, try_exceptIO, io_requests_get, liftIO.
  rewrite Hget, Hcode.
  change (HTTPStatus 200) with (Ok HTTPStatus_OK).
  cbn [negb status_eqb value HTTPStatus_OK Z.eqb Pos.eqb].
  destruct (json r) as [decoded|error]; [reflexivity|].
  cbn [select_clause isinstance_any existsb].
  rewrite orb_false_r.
  destruct (isinstance error ValueError); reflexivity.
Qed.

Lemma get_api_answer_not_json (r : Response) (error : exn) :
  requests_get w (requests_made st) (api_request cfg timestamp) = Ok r ->
  status_code r = 200 ->
  json r = Raise error ->
  isinstance error ValueError = true ->
  get_api_answer cfg w timestamp st
  = (Raise (mkUnexpectedResponseData
              ("Не удалось распарсить ответ: " ++ exn_str error)),
     after_request st).
Proof.
  intros Hget Hcode Hjson Hcls.
  rewrite (get_api_answer_ok_status Hget Hcode), Hjson, Hcls. reflexivity.
Qed.

(** C10: on a 200 answer whose body decodes, [get_api_answer] returns the
    decoded value as it is, having made that one request and no other; and
    whatever the outcome, a call makes exactly one request. *)
Theorem get_api_answer_roundtrip (r : Response) (decoded : pyobj) :
  requests_get w (requests_made st) (api_request cfg timestamp) = Ok r ->
  status_code r = 200 ->
  json r = Ok decoded ->
  get_api_answer cfg w timestamp st = (Ok decoded, after_request st)
  /\ requests_made (snd (get_api_answer cfg w timestamp st))
     = S (requests_made st).
Proof.
  intros Hget Hcode Hjson. split.
  - rewrite (get_api_answer_ok_status Hget Hcode), Hjson. reflexivity.
  - rewrite get_api_answer_state. reflexivity.
Qed.

(** C4: when the status code of the answer is no member of [HTTPStatus],
    [get_api_answer] raises the [ValueError] of the enumeration, not a
    [RequestError]; with a response at hand, a [RequestError] is raised
    exactly for the member codes other than 200, and it then carries the
    code, the phrase and the body. *)
Theorem get_api_answer_status_classes (r : Response) :
  requests_get w (requests_made st) (api_request cfg timestamp) = Ok r ->
  (forall error, json r = Raise error -> isinstance error ValueError = true) ->
  (status_phrase HTTPStatus_members (status_code r) = None ->
   fst (get_api_answer cfg w timestamp st)
   = Raise (mkValueError
              (str_of_int (status_code r) ++ " is not a valid HTTPStatus")))
  /\ (forall error,
        fst (get_api_answer cfg w timestamp st) = Raise error ->
        exn_class error = RequestError ->
        status_code r <> 200
        /\ exists p,
             status_phrase HTTPStatus_members (status_code r) = Some p
             /\ error = mkRequestError
                          ("Статус ответа: " ++ str_of_int (status_code r)
                           ++ " " ++ p ++ ". " ++ "Полный текст: " ++ text r))
  /\ (forall p,
        status_phrase HTTPStatus_members (status_code r) = Some p ->
        status_code r <> 200 ->
        fst (get_api_answer cfg w timestamp st)
        = Raise (mkRequestError
                   ("Статус ответа: " ++ str_of_int (status_code r)
                    ++ " " ++ p ++ ". " ++ "Полный текст: " ++ text r))).
Proof.
  intros Hget Hjson. split; [|split].
  - intros Hp. rewrite (get_api_answer_unregistered Hget Hp). reflexivity.
  - intros error Hres Hcls.
    destruct (status_phrase HTTPStatus_members (status_code r)) as [p|] eqn:Hp.
    + destruct (Z.eq_dec (status_code r) 200) as [Hcode|Hcode].
      * exfalso. rewrite (get_api_answer_ok_status Hget Hcode) in Hres.
        cbn [fst] in Hres.
        destruct (json r) as [decoded|error'] eqn:Hj; [discriminate|].
        rewrite (Hjson error' eq_refl) in Hres.
        injection Hres as <-. discriminate.
      * split; [assumption|]. exists p. split; [reflexivity|].
        rewrite (get_api_answer_bad_status Hget Hp Hcode) in Hres.
        cbn [fst] in Hres. injection Hres as <-. reflexivity.
    + exfalso. rewrite (get_api_answer_unregistered Hget Hp) in Hres.
      cbn [fst] in Hres. injection Hres as <-. discriminate.
  - intros p Hp Hcode.
    rewrite (get_api_answer_bad_status Hget Hp Hcode). reflexivity.
Qed.

End ApiClient.

(** ** The response validator *)

(** C6: [check_response] applies its four rules in order: [TypeError] for
    a response that is no [dict]; [KeyError] when the key [homeworks] is
    absent; [TypeError] when the value under it is no [list];
    [UnexpectedResponseData] when that list is empty; and it returns on a
    [dict] holding a non-empty list under [homeworks]. *)
Theorem check_response_rules (response : pyobj) :
  (isinstance_dict response = false ->
   check_response response
   = Raise (mkTypeError "Тип данных ответа отличается от dict"))
  /\ (forall d,
        response = PyDict d -> dict_get d "homeworks" = None ->
        check_response response
        = Raise (mkKeyError "В ответе отсутствует ключ со списком работ"))
  /\ (forall d v,
        response = PyDict d -> dict_get d "homeworks" = Some v ->
        isinstance_list v = false ->
        check_response response
        = Raise (mkTypeError "Тип данных списка работ отличается от list"))
  /\ (forall d,
        response = PyDict d -> dict_get d "homeworks" = Some (PyList []) ->
        check_response response
        = Raise (mkUnexpectedResponseData
                   ("API вернула пустой список домашних работ: "
                    ++ "ни одна работа пока не взята на проверку")))
  /\ (forall d homework rest,
        response = PyDict d ->
        dict_get d "homeworks" = Some (PyList (homework :: rest)) ->
        check_response response = Ok tt).
Proof.
  unfold check_response. repeat split.
  - intros ->. reflexivity.
  - intros d -> Hget. cbn [isinstance_dict negb py_contains bind].
    unfold dict_has. rewrite Hget. reflexivity.
  - intros d v -> Hget Hlist.
    cbn [isinstance_dict negb py_contains py_getitem bind].
    unfold dict_has. rewrite Hget. cbn [negb bind]. rewrite Hlist. reflexivity.
  - intros d -> Hget. cbn [isinstance_dict negb py_contains py_getitem bind].
    unfold dict_has. rewrite Hget. reflexivity.
  - intros d homework rest -> Hget.
    cbn [isinstance_dict negb py_contains py_getitem bind].
    unfold dict_has. rewrite Hget. reflexivity.
Qed.

(** ** Order on [str] *)

Lemma ltb_lt (a b : string) : (a <? b)%string = true <-> String_as_OT.lt a b.
Proof.
  unfold String.ltb. rewrite <- String_as_OT.cmp_lt. unfold String_as_OT.cmp.
  destruct (String.compare a b); split; congruence.
Qed.

Lemma ltb_irrefl (a : string) : (a <? a)%string = false.
Proof.
  unfold String.ltb.
  replace (String.compare a a) with Eq; [reflexivity|].
  symmetry. apply String_as_OT.cmp_eq. reflexivity.
Qed.

Lemma ltb_asym (a b : string) :
  (a <? b)%string = true -> (b <? a)%string = false.
Proof.
  unfold String.ltb. rewrite (String.compare_antisym a b).
  destruct (String.compare b a); simpl; congruence.
Qed.

(** [b <= a < c] gives [b < c]. *)
Lemma ltb_le_lt (a b c : string) :
  (a <? b)%string = false -> (a <? c)%string = true -> (b <? c)%string = true.
Proof.
  intros Hab Hac. apply ltb_lt. apply ltb_lt in Hac.
  unfold String.ltb in Hab.
  destruct (String.compare a b) eqn:Hcmp; try discriminate.
  - apply String.compare_eq_iff in Hcmp. subst. assumption.
  - apply String_as_OT.lt_trans with a; [|assumption].
    apply String_as_OT.cmp_lt. unfold String_as_OT.cmp.
    rewrite String.compare_antisym, Hcmp. reflexivity.
Qed.

(** ** The reference sort picks the last of the greatest *)

Section SortByStrFacts.

Variable A : Type.
Variable key : A -> string.

Lemma insert_by_nonempty (x : A) (l : list A) : insert_by key x l <> [].
Proof.
  destruct l as [|y rest]; simpl; [|destruct (_ <? _)%string]; discriminate.
Qed.

Lemma forallb_insert_by (p : A -> bool) (x : A) (l : list A) :
  forallb p (insert_by key x l) = p x && forallb p l.
Proof.
  induction l as [|y rest IH]; simpl; [reflexivity|].
  destruct (key y <? key x)%string; simpl; [|reflexivity].
  rewrite IH. destruct (p x), (p y); reflexivity.
Qed.

Lemma forallb_sort_by (p : A -> bool) (l : list A) :
  forallb p (sort_by key l) = forallb p l.
Proof.
  induction l as [|x rest IH]; simpl; [reflexivity|].
  rewrite forallb_insert_by, IH. reflexivity.
Qed.

Lemma last_cons_nonempty (y : A) (l : list A) (d : A) :
  l <> [] -> last (y :: l) d = last l d.
Proof. destruct l; [contradiction|reflexivity]. Qed.

Lemma last_insert_by (x : A) (l : list A) (d : A) :
  last (insert_by key x l) d
  = if forallb (fun y => (key y <? key x)%string) l then x else last l d.
Proof.
  induction l as [|y rest IH]; [reflexivity|].
  cbn [insert_by forallb].
  destruct (key y <? key x)%string; cbn [andb].
  - rewrite (last_cons_nonempty _ _ (insert_by_nonempty x rest)), IH.
    destruct (forallb (fun y => (key y <? key x)%string) rest) eqn:Hall;
      [reflexivity|].
    destruct rest; [discriminate|reflexivity].
  - reflexivity.
Qed.

Lemma last_sort_by (x : A) (l : list A) (d : A) :
  last (sort_by key (x :: l)) d
  = if forallb (fun y => (key y <? key x)%string) l then x
    else last (sort_by key l) d.
Proof. cbn [sort_by]. rewrite last_insert_by, forallb_sort_by. reflexivity. Qed.

Lemma sort_by_nonempty (l : list A) : l <> [] -> sort_by key l <> [].
Proof. destruct l; [contradiction|]. intros _. apply insert_by_nonempty. Qed.

(** Sorting keeps, at the end, the greatest element; among equals, the one
    that came last. *)
Lemma last_sort_by_spec (l : list A) (d : A) :
  l <> [] ->
  exists pre m post,
    l = (pre ++ m :: post)%list
    /\ last (sort_by key l) d = m
    /\ (forall y, In y l -> (key m <? key y)%string = false)
    /\ (forall y, In y post -> (key y <? key m)%string = true).
Proof.
  induction l as [|x rest IH]; [contradiction|]. intros _.
  rewrite last_sort_by.
  destruct (forallb (fun y => (key y <? key x)%string) rest) eqn:Hall.
  - exists [], x, rest. rewrite forallb_forall in Hall.
    repeat split.
    + intros y [<-|Hy]; [apply ltb_irrefl|]. apply ltb_asym, Hall, Hy.
    + intros y Hy. apply Hall, Hy.
  - destruct rest as [|x' rest']; [discriminate|].
    destruct IH as (pre & m & post & Hsplit & Hlast & Hmax & Hpost);
      [discriminate|].
    exists (x :: pre), m, post. rewrite Hsplit at 1.
    repeat split; try assumption.
    intros y [<-|Hy]; [|apply Hmax, Hy].
    destruct (key m <? key x)%string eqn:Hmx; [exfalso|reflexivity].
    assert (Hex : exists y0, In y0 (x' :: rest')
                             /\ (key y0 <? key x)%string = false).
    { clear - Hall. induction (x' :: rest') as [|z zs IHz]; [discriminate|].
      simpl in Hall. destruct (key z <? key x)%string eqn:Hz.
      - destruct (IHz Hall) as (y0 & Hin & Hy0).
        exists y0. split; [right; assumption|assumption].
      - exists z. split; [left; reflexivity|assumption]. }
    destruct Hex as (y0 & Hin & Hy0).
    rewrite (ltb_le_lt _ _ _ (Hmax y0 Hin) Hmx) in Hy0. discriminate.
Qed.

End SortByStrFacts.

(** ** The status resolver: the latest homework *)

Lemma list_first_rev (A : Type) (l : list A) (d : A) :
  l <> [] -> list_first (rev l) = Ok (last l d).
Proof.
  induction l as [|x rest IH]; [contradiction|]. intros _.
  destruct rest as [|y rest']; [reflexivity|].
  specialize (IH ltac:(discriminate)).
  change (rev (x :: y :: rest')) with (rev (y :: rest') ++ [x])%list.
  change (last (x :: y :: rest') d) with (last (y :: rest') d).
  destruct (rev (y :: rest')) as [|z zs]; [discriminate|].
  simpl in *. assumption.
Qed.

Lemma combine_map_self (A B : Type) (f : A -> B) (l : list A) :
  combine (map f l) l = map (fun x => (f x, x)) l.
Proof. induction l as [|x rest IH]; simpl; [|rewrite IH]; reflexivity. Qed.

Lemma date_updated_inv (homework : pyobj) (s : string) :
  date_updated homework = Some s ->
  exists d, homework = PyDict d /\ dict_get d "date_updated" = Some (PyStr s).
Proof.
  destruct homework as [| | | | |l|d]; try discriminate.
  unfold date_updated.
  destruct (dict_get d "date_updated") as [[| | | |s'| |]|] eqn:Hget;
    try discriminate.
  intros [= ->]. exists d. split; [reflexivity|assumption].
Qed.

Lemma date_key_of (homework : pyobj) (s : string) :
  date_updated homework = Some s -> date_key homework = s.
Proof. unfold date_key. intros ->. reflexivity. Qed.

Lemma check_date_dated (homework : pyobj) :
  dated homework -> check_date homework = Ok tt.
Proof.
  intros (s & Hs). destruct (date_updated_inv _ Hs) as (d & -> & Hget).
  unfold check_date, py_contains, dict_has. rewrite Hget. reflexivity.
Qed.

Lemma for_each_dated (items : list pyobj) :
  Forall dated items -> for_each items check_date = Ok tt.
Proof.
  induction 1 as [|h rest Hh _ IH]; [reflexivity|].
  cbn [for_each]. rewrite (check_date_dated Hh). exact IH.
Qed.

Lemma for_each_lacking (items : list pyobj) :
  Forall (fun homework => isinstance_dict homework = true) items ->
  Exists lacks_date items ->
  for_each items check_date
  = Raise (mkKeyError "Не у всех работ указана дата обновления").
Proof.
  induction 1 as [|h rest Hh _ IH]; intros Hex; [inversion Hex|].
  destruct h as [| | | | |l|d]; try discriminate.
  cbn [for_each]. unfold check_date at 1. cbn [py_contains bind].
  unfold dict_has.
  destruct (dict_get d "date_updated") as [v|] eqn:Hget; [|reflexivity].
  cbn [negb bind]. apply IH.
  inversion Hex as [? ? (d' & Heq & Hnone)|]; [|assumption].
  injection Heq as <-. congruence.
Qed.

Lemma getitem_dated (items : list pyobj) :
  Forall dated items ->
  mapM (fun homework => py_getitem homework "date_updated") items
  = Ok (map (fun homework => PyStr (date_key homework)) items).
Proof.
  induction 1 as [|h rest (s & Hs) _ IH]; [reflexivity|].
  cbn [mapM map]. rewrite IH, (date_key_of _ Hs).
  destruct (date_updated_inv _ Hs) as (d & -> & Hget).
  cbn [py_getitem]. rewrite Hget. reflexivity.
Qed.

Section LatestHomework.

Variable py_lt : pyobj -> pyobj -> option bool.

(** On two [str], [<] compares by code points. *)
Hypothesis py_lt_str :
  forall a b : string, py_lt (PyStr a) (PyStr b) = Some (a <? b)%string.

Lemma insert_keyed_str (x : pyobj) (l : list pyobj) :
  insert_keyed py_lt (keyed x) (map keyed l)
  = Ok (map keyed (insert_by date_key x l)).
Proof.
  induction l as [|y rest IH]; [reflexivity|].
  cbn [map insert_keyed insert_by]. unfold py_less.
  cbn [keyed fst]. rewrite py_lt_str. cbn [bind].
  destruct (date_key y <? date_key x)%string; [|reflexivity].
  fold (keyed x). rewrite IH. reflexivity.
Qed.

Lemma stable_sort_str (l : list pyobj) :
  stable_sort py_lt (map keyed l) = Ok (map keyed (sort_by date_key l)).
Proof.
  induction l as [|x rest IH]; [reflexivity|].
  cbn [map stable_sort sort_by]. rewrite IH. cbn [bind].
  apply insert_keyed_str.
Qed.

Lemma sorted_dated (items : list pyobj) :
  Forall dated items ->
  sorted py_lt (PyList items)
         (fun homework => py_getitem homework "date_updated") true
  = Ok (rev (sort_by date_key (rev items))).
Proof.
  intros Hall. unfold sorted. cbn [py_iter bind].
  rewrite (getitem_dated Hall). cbn [bind].
  rewrite combine_map_self.
  change (fun x : pyobj => (PyStr (date_key x), x)) with keyed.
  rewrite <- map_rev, stable_sort_str. cbn [bind].
  rewrite <- map_rev, map_map. cbn [keyed snd]. rewrite map_id. reflexivity.
Qed.

Lemma get_latest_homework_dated (d : dict) (items : list pyobj) :
  dict_get d "homeworks" = Some (PyList items) ->
  items <> [] ->
  Forall dated items ->
  get_latest_homework py_lt (PyDict d)
  = Ok (last (sort_by date_key (rev items)) PyNone).
Proof.
  intros Hget Hne Hall. unfold get_latest_homework.
  cbn [py_getitem]. rewrite Hget. cbn [bind py_iter].
  rewrite (for_each_dated Hall). cbn [bind].
  rewrite (sorted_dated Hall). cbn [bind].
  apply list_first_rev, sort_by_nonempty.
  intros Hrev. apply Hne. rewrite <- (rev_involutive items), Hrev. reflexivity.
Qed.

(** C7: on a response whose [homeworks] list is non-empty and made of
    items that each carry a [str] under [date_updated],
    [get_latest_homework] returns an item of the list whose date no other
    item exceeds in code-point order, and every item before it in the list
    has a strictly smaller date: the first of the latest.  When the items
    are [dict]s and one of them lacks [date_updated], it raises
    [KeyError]. *)
Theorem get_latest_homework_first_of_latest (d : dict) (items : list pyobj) :
  dict_get d "homeworks" = Some (PyList items) ->
  (items <> [] ->
   Forall dated items ->
   exists (i : nat) (latest : pyobj) (date : string),
     get_latest_homework py_lt (PyDict d) = Ok latest
     /\ nth_error items i = Some latest
     /\ date_updated latest = Some date
     /\ (forall homework s,
           In homework items -> date_updated homework = Some s ->
           (date <? s)%string = false)
     /\ (forall j homework s,
           (j < i)%nat -> nth_error items j = Some homework ->
           date_updated homework = Some s -> (s <? date)%string = true))
  /\ (Forall (fun homework => isinstance_dict homework = true) items ->
      Exists lacks_date items ->
      get_latest_homework py_lt (PyDict d)
      = Raise (mkKeyError "Не у всех работ указана дата обновления")).
Proof.
  intros Hget. split.
  - intros Hne Hall.
    assert (Hrev : rev items <> []).
    { intros Hrev. apply Hne.
      rewrite <- (rev_involutive items), Hrev. reflexivity. }
    destruct (last_sort_by_spec date_key PyNone Hrev)
      as (pre & m & post & Hsplit & Hlast & Hmax & Hpost).
    assert (Hitems : items = (rev post ++ m :: rev pre)%list).
    { rewrite <- (rev_involutive items), Hsplit, rev_app_distr.
      cbn [rev]. rewrite <- app_assoc. reflexivity. }
    assert (Hm : In m items).
    { rewrite Hitems. apply in_or_app. right. left. reflexivity. }
    rewrite Forall_forall in Hall.
    destruct (Hall m Hm) as (date & Hdate).
    exists (List.length (rev post)), m, date.
    rewrite (get_latest_homework_dated d Hget Hne), Hlast
      by (apply Forall_forall; assumption).
    repeat split.
    + rewrite Hitems, nth_error_app2, Nat.sub_diag by lia. reflexivity.
    + assumption.
    + intros homework s Hin Hs.
      rewrite <- (date_key_of _ Hdate), <- (date_key_of _ Hs).
      apply Hmax. apply in_rev. rewrite rev_involutive. assumption.
    + intros j homework s Hj Hnth Hs.
      rewrite <- (date_key_of _ Hdate), <- (date_key_of _ Hs).
      apply Hpost. apply in_rev.
      rewrite Hitems, nth_error_app1 in Hnth by assumption.
      apply nth_error_In with j. assumption.
  - intros Hdicts Hex. unfold get_latest_homework.
    cbn [py_getitem]. rewrite Hget. cbn [bind py_iter].
    rewrite (for_each_lacking Hdicts Hex). reflexivity.
Qed.

End LatestHomework.

(** ** The status resolver: rendering the status *)

Section ParseStatus.

Variable py_str : pyobj -> string.

Lemma verdicts_contains_hashable (status : pyobj) :
  py_hashable status = Ok tt ->
  verdicts_contains status
  = Ok (match verdict_for status with Some _ => true | None => false end).
Proof.
  destruct status; try discriminate; intros _; reflexivity.
Qed.

Lemma verdict_for_hashable (status : pyobj) (verdict : string) :
  verdict_for status = Some verdict -> py_hashable status = Ok tt.
Proof. destruct status; try discriminate; reflexivity. Qed.

Lemma verdicts_getitem_known (status : pyobj) (verdict : string) :
  verdict_for status = Some verdict ->
  verdicts_getitem py_str status = Ok verdict.
Proof.
  destruct status; try discriminate.
  unfold verdict_for, verdicts_getitem. cbn [py_hashable bind].
  intros ->. reflexivity.
Qed.

(** C8, as the code has it: on an item that is a [dict], [parse_status]
    raises a [KeyError] of its own for a missing [homework_name], for a
    missing [status], and for a status that is hashable (a [str], a
    number, a [bool] or [None]) but no key of the vocabulary; the three
    differ.  When both keys are there and the status is in the vocabulary
    it returns the verdict phrase behind the fixed prefix, the formatted
    name between double quotes and a full stop. *)
Theorem parse_status_cases (d : dict) :
  (dict_get d "homework_name" = None ->
   parse_status py_str (PyDict d)
   = Raise (mkKeyError "У домашней работы отсутствет название"))
  /\ (forall name,
        dict_get d "homework_name" = Some name ->
        dict_get d "status" = None ->
        parse_status py_str (PyDict d)
        = Raise (mkKeyError "У домашней работы отсутствет статус"))
  /\ (forall name status,
        dict_get d "homework_name" = Some name ->
        dict_get d "status" = Some status ->
        py_hashable status = Ok tt ->
        verdict_for status = None ->
        parse_status py_str (PyDict d)
        = Raise (mkKeyError "Домашняя работа содержит неизвестный статус"))
  /\ (forall name status verdict,
        dict_get d "homework_name" = Some name ->
        dict_get d "status" = Some status ->
        verdict_for status = Some verdict ->
        parse_status py_str (PyDict d)
        = Ok ("Изменился статус проверки работы " ++ dquote
              ++ py_str name ++ dquote ++ ". " ++ verdict))
  /\ (mkKeyError "У домашней работы отсутствет название"
      <> mkKeyError "У домашней работы отсутствет статус"
      /\ mkKeyError "У домашней работы отсутствет название"
         <> mkKeyError "Домашняя работа содержит неизвестный статус"
      /\ mkKeyError "У домашней работы отсутствет статус"
         <> mkKeyError "Домашняя работа содержит неизвестный статус").
Proof.
  unfold parse_status. cbn [py_contains py_getitem bind]. unfold dict_has.
  split; [|split; [|split; [|split]]].
  - intros ->. reflexivity.
  - intros name -> ->. reflexivity.
  - intros name status -> -> Hhash Hnone. cbn [negb bind].
    rewrite (verdicts_contains_hashable _ Hhash), Hnone. reflexivity.
  - intros name status verdict -> -> Hsome. cbn [negb bind].
    rewrite (verdicts_contains_hashable _ (verdict_for_hashable _ Hsome)).
    rewrite Hsome.
    cbn [negb bind]. rewrite (verdicts_getitem_known _ Hsome). reflexivity.
  - repeat split; intros H; vm_compute in H; discriminate.
Qed.

End ParseStatus.

(** ** Only errors are raised *)

Create HintDb errors.

Lemma only_errors_bind (A B : Type) (m : result A) (k : A -> result B) :
  only_errors m -> (forall a, only_errors (k a)) -> only_errors (bind m k).
Proof. destruct m as [a|error]; simpl; auto. Qed.

Ltac errors :=
  repeat
    match goal with
    | |- only_errors (bind _ _) => apply only_errors_bind; [|intros ?]
    | |- only_errors (Ok _) => exact I
    | |- only_errors (Raise _) => reflexivity
    | |- only_errors (if ?b then _ else _) => destruct b
    | |- only_errors (match ?x with _ => _ end) => destruct x
    | |- only_errors _ => solve [auto with errors]
    end.

Lemma only_errors_py_contains (key : string) (container : pyobj) :
  only_errors (py_contains key container).
Proof. unfold py_contains. errors. Qed.

Lemma only_errors_py_getitem (container : pyobj) (key : string) :
  only_errors (py_getitem container key).
Proof. unfold py_getitem. errors. Qed.

Lemma only_errors_py_iter (x : pyobj) : only_errors (py_iter x).
Proof. unfold py_iter. errors. Qed.

Lemma only_errors_list_first (A : Type) (l : list A) :
  only_errors (list_first l).
Proof. unfold list_first. errors. Qed.

Lemma only_errors_py_hashable (x : pyobj) : only_errors (py_hashable x).
Proof. unfold py_hashable. errors. Qed.

#[local] Hint Resolve only_errors_py_contains only_errors_py_getitem
  only_errors_py_iter only_errors_list_first only_errors_py_hashable : errors.

Lemma only_errors_verdicts_contains (key : pyobj) :
  only_errors (verdicts_contains key).
Proof. unfold verdicts_contains. errors. Qed.

Lemma only_errors_for_each (A : Type) (body : A -> result unit)
    (items : list A) :
  (forall x, only_errors (body x)) -> only_errors (for_each items body).
Proof.
  intros Hbody. induction items as [|x rest IH]; cbn [for_each]; errors.
Qed.

Lemma only_errors_mapM (A B : Type) (f : A -> result B) (l : list A) :
  (forall x, only_errors (f x)) -> only_errors (mapM f l).
Proof. intros Hf. induction l as [|x rest IH]; cbn [mapM]; errors. Qed.

Lemma only_errors_check_date (homework : pyobj) :
  only_errors (check_date homework).
Proof. unfold check_date. errors. Qed.

Lemma only_errors_check_response (response : pyobj) :
  only_errors (check_response response).
Proof. unfold check_response. errors. Qed.

#[local] Hint Resolve only_errors_verdicts_contains only_errors_for_each
  only_errors_mapM only_errors_check_date only_errors_check_response : errors.

Section OnlyErrors.

Variable py_lt : pyobj -> pyobj -> option bool.
Variable py_str : pyobj -> string.

Lemma only_errors_py_less (a b : pyobj) : only_errors (py_less py_lt a b).
Proof. unfold py_less. errors. Qed.

Lemma only_errors_verdicts_getitem (key : pyobj) :
  only_errors (verdicts_getitem py_str key).
Proof. unfold verdicts_getitem. errors. Qed.

#[local] Hint Resolve only_errors_py_less only_errors_verdicts_getitem : errors.

Lemma only_errors_insert_keyed (x : pyobj * pyobj) (l : list (pyobj * pyobj)) :
  only_errors (insert_keyed py_lt x l).
Proof. induction l as [|y rest IH]; cbn [insert_keyed]; errors. Qed.

#[local] Hint Resolve only_errors_insert_keyed : errors.

Lemma only_errors_stable_sort (l : list (pyobj * pyobj)) :
  only_errors (stable_sort py_lt l).
Proof. induction l as [|x rest IH]; cbn [stable_sort]; errors. Qed.

#[local] Hint Resolve only_errors_stable_sort : errors.

Lemma only_errors_sorted (iterable : pyobj) (key : pyobj -> result pyobj)
    (reverse : bool) :
  (forall x, only_errors (key x)) ->
  only_errors (sorted py_lt iterable key reverse).
Proof. intros Hkey. unfold sorted. errors. Qed.

#[local] Hint Resolve only_errors_sorted : errors.

Lemma only_errors_get_latest_homework (response : pyobj) :
  only_errors (get_latest_homework py_lt response).
Proof.
  unfold get_latest_homework. errors.
Qed.

Lemma only_errors_parse_status (homework : pyobj) :
  only_errors (parse_status py_str homework).
Proof. unfold parse_status. errors. Qed.

End OnlyErrors.

(** ** The main loop *)

Lemma only_errorsIO_get_api_answer (cfg : config) (w : world) (timestamp : Z) :
  undisturbed w -> only_errorsIO (get_api_answer cfg w timestamp).
Proof.
  intros [Hget _] st.
  specialize (Hget (requests_made st) (api_request cfg timestamp)).
  destruct Hget as [Hreq Hjson].
  destruct (requests_get w (requests_made st) (api_request cfg timestamp))
    as [r|error] eqn:Hr.
  - destruct (status_phrase HTTPStatus_members (status_code r)) as [p|] eqn:Hp.
    + destruct (Z.eq_dec (status_code r) 200) as [Hcode|Hcode].
      * rewrite (get_api_answer_ok_status _ _ _ _ Hr Hcode). cbn [fst].
        specialize (Hjson r eq_refl).
        destruct (json r) as [decoded|error]; [exact I|].
        destruct (isinstance error ValueError); [reflexivity|exact Hjson].
      * rewrite (get_api_answer_bad_status _ _ _ _ Hr Hp Hcode). reflexivity.
    + rewrite (get_api_answer_unregistered _ _ _ _ Hr Hp). reflexivity.
  - unfold get_api_answer, bindIO, try_exceptIO, io_requests_get.
    rewrite Hr. cbn [select_clause]. cbn [only_errors] in Hreq.
    destruct (isinstance_any error [RequestException]);
      [reflexivity|exact Hreq].
Qed.

Section MainLoop.

Variable py_lt : pyobj -> pyobj -> option bool.
Variable py_str : pyobj -> string.
Variables (cfg : config) (w : world).

(** The body of the first [try] makes one request and touches nothing
    else. *)
Lemma poll_status_state (st : io_state) :
  snd (poll_status py_lt py_str cfg w st) = after_request st.
Proof.
  unfold poll_status, bindIO, liftIO, retIO.
  pose proof (get_api_answer_state cfg w 0 st) as Hst.
  destruct (get_api_answer cfg w 0 st) as [[response|error] st1];
    cbn [snd] in Hst; subst st1; [|reflexivity].
  destruct (check_response response); [|reflexivity].
  destruct (get_latest_homework py_lt response) as [homework|]; [|reflexivity].
  destruct (parse_status py_str homework); reflexivity.
Qed.

Lemma only_errors_poll_status (st : io_state) :
  undisturbed w -> only_errors (fst (poll_status py_lt py_str cfg w st)).
Proof.
  intros Hw. unfold poll_status, bindIO, liftIO, retIO.
  pose proof (only_errorsIO_get_api_answer cfg 0 Hw st) as Hapi.
  destruct (get_api_answer cfg w 0 st) as [[response|error] st1];
    cbn [fst] in *; [|exact Hapi].
  pose proof (only_errors_check_response response) as Hcheck.
  destruct (check_response response); [|exact Hcheck].
  pose proof (only_errors_get_latest_homework py_lt response) as Hlatest.
  destruct (get_latest_homework py_lt response) as [homework|];
    [|exact Hlatest].
  pose proof (only_errors_parse_status py_str homework) as Hparse.
  destruct (parse_status py_str homework); [exact I|exact Hparse].
Qed.

(** The first [try] as a whole. *)
Lemma compute_status_eq (st : io_state) :
  compute_status py_lt py_str cfg w st
  = (status_of_outcome (fst (poll_status py_lt py_str cfg w st)),
     after_request st).
Proof.
  unfold compute_status, try_exceptIO.
  pose proof (poll_status_state st) as Hst.
  destruct (poll_status py_lt py_str cfg w st) as [[s|error] st1];
    cbn [fst snd] in *; subst st1; [reflexivity|].
  cbn [select_clause status_of_outcome].
  destruct (isinstance_any error
              [UnexpectedResponseData; RequestError; TypeError; KeyError]);
    [reflexivity|].
  cbn [isinstance_any existsb]. rewrite orb_false_r.
  destruct (isinstance error Exception); reflexivity.
Qed.

Lemma compute_status_state (st : io_state) :
  snd (compute_status py_lt py_str cfg w st) = after_request st.
Proof. rewrite compute_status_eq. reflexivity. Qed.

Lemma compute_status_total (st : io_state) :
  undisturbed w ->
  exists s, compute_status py_lt py_str cfg w st = (Ok s, after_request st).
Proof.
  intros Hw. rewrite compute_status_eq.
  pose proof (only_errors_poll_status st Hw) as Hpoll.
  destruct (fst (poll_status py_lt py_str cfg w st)) as [s|error];
    cbn [status_of_outcome].
  - exists s. reflexivity.
  - cbn [only_errors] in Hpoll. rewrite Hpoll.
    destruct (isinstance_any error _); eexists; reflexivity.
Qed.

(** The notifier, by the outcome of [bot.send_message]. *)
Lemma send_message_delivered (message : string) (st : io_state) :
  bot_send_message w (List.length (sent st)) (TELEGRAM_CHAT_ID cfg) message
  = Ok tt ->
  send_message cfg w message st = (Ok tt, after_send message true st).
Proof.
  intros Hbot. unfold send_message, try_exceptIO, io_bot_send_message.
  rewrite Hbot. reflexivity.
Qed.

Lemma send_message_failed (message : string) (error : exn) (st : io_state) :
  bot_send_message w (List.length (sent st)) (TELEGRAM_CHAT_ID cfg) message
  = Raise error ->
  isinstance error Exception = true ->
  send_message cfg w message st
  = (Raise (mkMessageNotSent ("Ошибка при отправке: " ++ exn_str error)),
     after_send message false st).
Proof.
  intros Hbot Hcls. unfold send_message, try_exceptIO, io_bot_send_message.
  rewrite Hbot. cbn [select_clause isinstance_any existsb].
  rewrite Hcls. reflexivity.
Qed.

Lemma send_message_attempt (message : string) (st : io_state) :
  exists delivered,
    snd (send_message cfg w message st) = after_send message delivered st.
Proof.
  unfold send_message, try_exceptIO, io_bot_send_message.
  destruct (bot_send_message w _ _ message) as [u|error].
  - exists true. reflexivity.
  - exists false. cbn [select_clause is_ok].
    destruct (isinstance_any error [Exception]); reflexivity.
Qed.

(** The second half of the turn. *)
Lemma notify_unchanged (s : string) (st : io_state) :
  notify cfg w s s st = (Ok s, st).
Proof. unfold notify. rewrite String.eqb_refl. reflexivity. Qed.

Lemma notify_delivered (previous_status s : string) (st : io_state) :
  s <> previous_status ->
  bot_send_message w (List.length (sent st)) (TELEGRAM_CHAT_ID cfg) s = Ok tt ->
  notify cfg w previous_status s st = (Ok s, after_send s true st).
Proof.
  intros Hneq Hbot. unfold notify.
  apply String.eqb_neq in Hneq. rewrite Hneq.
  unfold try_exceptIO, bindIO. rewrite (send_message_delivered _ _ Hbot).
  reflexivity.
Qed.

Lemma notify_failed (previous_status s : string) (error : exn)
    (st : io_state) :
  s <> previous_status ->
  bot_send_message w (List.length (sent st)) (TELEGRAM_CHAT_ID cfg) s
  = Raise error ->
  isinstance error Exception = true ->
  notify cfg w previous_status s st
  = (Ok (failure_status error), after_send s false st).
Proof.
  intros Hneq Hbot Hcls. unfold notify.
  apply String.eqb_neq in Hneq. rewrite Hneq.
  unfold try_exceptIO, bindIO. rewrite (send_message_failed _ _ Hbot Hcls).
  reflexivity.
Qed.

Lemma notify_attempt (previous_status s : string) (st : io_state) :
  s <> previous_status ->
  exists delivered,
    snd (notify cfg w previous_status s st) = after_send s delivered st.
Proof.
  intros Hneq. unfold notify.
  apply String.eqb_neq in Hneq. rewrite Hneq.
  unfold try_exceptIO, bindIO.
  destruct (send_message_attempt s st) as (delivered & Hst).
  exists delivered.
  destruct (send_message cfg w s st) as [[u|error] st1]; cbn [snd] in Hst;
    subst st1; [reflexivity|].
  destruct (select_clause error _) as [handler|] eqn:Hsel; [|reflexivity].
  cbn [select_clause] in Hsel.
  destruct (isinstance_any error [MessageNotSent]);
    [injection Hsel as <-; reflexivity|].
  destruct (isinstance_any error [Exception]);
    [injection Hsel as <-; reflexivity|discriminate].
Qed.

Lemma notify_total (previous_status s : string) (st : io_state) :
  undisturbed w ->
  exists s' st',
    notify cfg w previous_status s st = (Ok s', st')
    /\ requests_made st' = requests_made st /\ slept st' = slept st.
Proof.
  intros [_ Hbot].
  destruct (String.eqb_spec s previous_status) as [->|Hneq].
  - exists previous_status, st. rewrite notify_unchanged. auto.
  - specialize (Hbot (List.length (sent st)) (TELEGRAM_CHAT_ID cfg) s).
    destruct (bot_send_message w _ _ s) as [[]|error] eqn:Hsend.
    + eexists _, _. rewrite (notify_delivered _ Hneq Hsend). auto.
    + eexists _, _. rewrite (notify_failed _ Hneq Hsend Hbot). auto.
Qed.

(** One turn, given the status it computes. *)
Lemma cycle_eq (previous_status s : string) (st st1 : io_state) :
  compute_status py_lt py_str cfg w st = (Ok s, st1) ->
  cycle py_lt py_str cfg w previous_status st
  = match notify cfg w previous_status s st1 with
    | (Ok s', st2) => (Ok s', after_sleep RETRY_PERIOD st2)
    | (Raise error, st2) => (Raise error, st2)
    end.
Proof.
  intros Hcompute. unfold cycle, bindIO. rewrite Hcompute.
  destruct (notify cfg w previous_status s st1) as [[s'|error] st2];
    reflexivity.
Qed.

Lemma cycle_total (previous_status : string) (st : io_state) :
  undisturbed w ->
  exists s' st',
    cycle py_lt py_str cfg w previous_status st = (Ok s', st')
    /\ requests_made st' = S (requests_made st)
    /\ slept st' = slept st + RETRY_PERIOD.
Proof.
  intros Hw. destruct (compute_status_total st Hw) as (s & Hcompute).
  rewrite (cycle_eq _ _ Hcompute).
  destruct (notify_total previous_status s (after_request st) Hw)
    as (s' & st' & -> & Hreq & Hslept).
  eexists _, _. split; [reflexivity|].
  cbn [after_sleep requests_made slept]. rewrite Hreq, Hslept. auto.
Qed.

Lemma loop_total (n : nat) :
  undisturbed w ->
  forall previous_status st,
  exists s' st',
    loop py_lt py_str cfg w n previous_status st = (Ok s', st')
    /\ requests_made st' = (requests_made st + n)%nat
    /\ slept st' = slept st + RETRY_PERIOD * Z.of_nat n.
Proof.
  intros Hw. induction n as [|n IH]; intros previous_status st.
  - exists previous_status, st. cbn [loop]. unfold retIO.
    split; [reflexivity|]. split; [lia|lia].
  - destruct (cycle_total previous_status st Hw)
      as (s1 & st1 & Hcycle & Hreq & Hslept).
    destruct (IH s1 st1) as (s' & st' & Hloop & Hreq' & Hslept').
    exists s', st'. cbn [loop]. unfold bindIO.
    rewrite Hcycle, Hloop. split; [reflexivity|]. split; lia.
Qed.

(** No status the first [try] computes can be taken for a failure
    status. *)
Lemma parse_status_prefix (homework : pyobj) (s : string) :
  parse_status py_str homework = Ok s ->
  exists rest, s = "Изменился статус проверки работы " ++ rest.
Proof.
  unfold parse_status, bind.
  repeat match goal with
         | |- context [match ?x with _ => _ end] =>
             destruct x; try discriminate
         end.
  intros [= <-]. eexists. reflexivity.
Qed.

Lemma poll_status_prefix (st : io_state) (s : string) :
  fst (poll_status py_lt py_str cfg w st) = Ok s ->
  exists rest, s = "Изменился статус проверки работы " ++ rest.
Proof.
  unfold poll_status, bindIO, liftIO, retIO.
  destruct (get_api_answer cfg w 0 st) as [[response|error] st1];
    [|discriminate].
  destruct (check_response response); [|discriminate].
  destruct (get_latest_homework py_lt response) as [homework|]; [|discriminate].
  destruct (parse_status py_str homework) as [s'|] eqn:Hparse; [|discriminate].
  intros [= <-]. exact (parse_status_prefix _ Hparse).
Qed.

Lemma computed_status_is_no_failure (st st1 : io_state) (s : string) :
  compute_status py_lt py_str cfg w st = (Ok s, st1) ->
  is_failure_status s = false.
Proof.
  rewrite compute_status_eq. intros [= Hs _].
  destruct (fst (poll_status py_lt py_str cfg w st)) as [s'|error] eqn:Hpoll;
    cbn [status_of_outcome] in Hs.
  - injection Hs as <-.
    destruct (poll_status_prefix _ Hpoll) as (rest & ->). reflexivity.
  - destruct (isinstance_any error _); [injection Hs as <-; reflexivity|].
    destruct (isinstance error Exception); [|discriminate].
    injection Hs as <-. reflexivity.
Qed.

Lemma failure_status_is_failure (error : exn) :
  is_failure_status (failure_status error) = true.
Proof. reflexivity. Qed.

Lemma computed_status_differs (st st1 : io_state) (s : string) (error : exn) :
  compute_status py_lt py_str cfg w st = (Ok s, st1) ->
  s <> failure_status error.
Proof.
  intros Hcompute ->.
  pose proof (failure_status_is_failure error) as Hfail.
  rewrite (computed_status_is_no_failure _ Hcompute) in Hfail.
  discriminate.
Qed.

(** An exception that is no error passes both handlers of the second
    [try]. *)
Lemma not_error_not_MessageNotSent (error : exn) :
  isinstance error Exception = false ->
  isinstance error MessageNotSent = false.
Proof. destruct error as [[] msg]; vm_compute; congruence. Qed.

Lemma send_message_crashed (message : string) (error : exn) (st : io_state) :
  bot_send_message w (List.length (sent st)) (TELEGRAM_CHAT_ID cfg) message
  = Raise error ->
  isinstance error Exception = false ->
  send_message cfg w message st = (Raise error, after_send message false st).
Proof.
  intros Hbot Hcls. unfold send_message, try_exceptIO, io_bot_send_message.
  rewrite Hbot. cbn [select_clause isinstance_any existsb].
  rewrite Hcls. reflexivity.
Qed.

Lemma notify_crashed (previous_status s : string) (error : exn)
    (st : io_state) :
  s <> previous_status ->
  bot_send_message w (List.length (sent st)) (TELEGRAM_CHAT_ID cfg) s
  = Raise error ->
  isinstance error Exception = false ->
  notify cfg w previous_status s st = (Raise error, after_send s false st).
Proof.
  intros Hneq Hbot Hcls. unfold notify.
  apply String.eqb_neq in Hneq. rewrite Hneq.
  unfold try_exceptIO, bindIO. rewrite (send_message_crashed _ _ Hbot Hcls).
  cbn [select_clause isinstance_any existsb].
  rewrite Hcls, (not_error_not_MessageNotSent _ Hcls). reflexivity.
Qed.

(** What one turn does with the bot, by cases. *)
Lemma cycle_unchanged (s : string) (st st1 : io_state) :
  compute_status py_lt py_str cfg w st = (Ok s, st1) ->
  cycle py_lt py_str cfg w s st = (Ok s, after_sleep RETRY_PERIOD st1).
Proof. intros Hc. rewrite (cycle_eq _ _ Hc), notify_unchanged. reflexivity. Qed.

Lemma cycle_attempt (previous_status s : string) (st st1 : io_state) :
  compute_status py_lt py_str cfg w st = (Ok s, st1) ->
  s <> previous_status ->
  exists delivered,
    sent (snd (cycle py_lt py_str cfg w previous_status st))
    = (sent st ++ [(s, delivered)])%list.
Proof.
  intros Hc Hneq. rewrite (cycle_eq _ _ Hc).
  destruct (notify_attempt st1 Hneq) as (delivered & Hst).
  exists delivered.
  assert (Hst1 : sent st1 = sent st).
  { pose proof (compute_status_state st) as H. rewrite Hc in H.
    cbn [snd] in H. subst st1. reflexivity. }
  destruct (notify cfg w previous_status s st1) as [[s'|error] st2];
    cbn [snd] in *; subst st2; cbn [after_sleep after_send sent];
    rewrite Hst1; reflexivity.
Qed.

Lemma cycle_delivered_or_failed (previous_status s s1 : string)
    (st st1 st2 : io_state) (delivered : bool) :
  compute_status py_lt py_str cfg w st = (Ok s, st1) ->
  s <> previous_status ->
  cycle py_lt py_str cfg w previous_status st = (Ok s1, st2) ->
  sent st2 = (sent st ++ [(s, delivered)])%list ->
  if delivered then s1 = s else exists error, s1 = failure_status error.
Proof.
  intros Hc Hneq Hcycle Hsent. rewrite (cycle_eq _ _ Hc) in Hcycle.
  assert (Hst1 : sent st1 = sent st).
  { pose proof (compute_status_state st) as H. rewrite Hc in H.
    cbn [snd] in H. subst st1. reflexivity. }
  destruct (bot_send_message w (List.length (sent st1))
              (TELEGRAM_CHAT_ID cfg) s)
    as [[]|error] eqn:Hbot.
  - rewrite (notify_delivered _ Hneq Hbot) in Hcycle.
    injection Hcycle as <- <-. cbn [after_sleep after_send sent] in Hsent.
    rewrite Hst1 in Hsent. apply app_inv_head in Hsent.
    injection Hsent as <-. reflexivity.
  - destruct (isinstance error Exception) eqn:Hcls.
    + rewrite (notify_failed _ Hneq Hbot Hcls) in Hcycle.
      injection Hcycle as <- <-. cbn [after_sleep after_send sent] in Hsent.
      rewrite Hst1 in Hsent. apply app_inv_head in Hsent.
      injection Hsent as <-. exists error. reflexivity.
    + rewrite (notify_crashed _ Hneq Hbot Hcls) in Hcycle. discriminate.
Qed.

Lemma attempts_same (st st' : io_state) :
  sent st' = sent st -> attempts st st' = 0%nat.
Proof. unfold attempts. intros ->. lia. Qed.

Lemma attempts_one (st st' : io_state) (a : string * bool) :
  sent st' = (sent st ++ [a])%list -> attempts st st' = 1%nat.
Proof. unfold attempts. intros ->. rewrite length_app. simpl. lia. Qed.

Lemma attempts_two (st st' : io_state) (a b : string * bool) :
  sent st' = ((sent st ++ [a]) ++ [b])%list -> attempts st st' = 2%nat.
Proof. unfold attempts. intros ->. rewrite !length_app. simpl. lia. Qed.

(** C1, as the code has it: in a turn of the loop [bot.send_message] is
    called exactly when the status just computed differs from
    [previous_status], and then once, with that status.  Over two
    consecutive turns that compute the same status the bot is called not
    at all when that status equals the [previous_status] the first turn
    starts from, once when it differs and the message is delivered, and
    twice when it differs and the first call fails: [previous_status] then
    holds the failure text and the second turn tries again. *)
Theorem notification_dedup (previous_status s : string) (st st1 : io_state) :
  compute_status py_lt py_str cfg w st = (Ok s, st1) ->
  (s = previous_status ->
   sent (snd (cycle py_lt py_str cfg w previous_status st)) = sent st)
  /\ (s <> previous_status ->
      exists delivered,
        sent (snd (cycle py_lt py_str cfg w previous_status st))
        = (sent st ++ [(s, delivered)])%list)
  /\ (forall s1 st2 st3,
        cycle py_lt py_str cfg w previous_status st = (Ok s1, st2) ->
        compute_status py_lt py_str cfg w st2 = (Ok s, st3) ->
        let st4 := snd (cycle py_lt py_str cfg w s1 st2) in
        (s = previous_status -> attempts st st4 = 0%nat)
        /\ (s <> previous_status ->
            sent st2 = (sent st ++ [(s, true)])%list ->
            attempts st st4 = 1%nat)
        /\ (s <> previous_status ->
            sent st2 = (sent st ++ [(s, false)])%list ->
            attempts st st4 = 2%nat)).
Proof.
  intros Hc. split; [|split].
  - intros <-. rewrite (cycle_unchanged st Hc). cbn [snd after_sleep sent].
    pose proof (compute_status_state st) as H. rewrite Hc in H.
    cbn [snd] in H. subst st1. reflexivity.
  - intros Hneq. exact (cycle_attempt st Hc Hneq).
  - intros s1 st2 st3 Hcycle Hc2 st4. subst st4. split; [|split].
    + intros <-. rewrite (cycle_unchanged st Hc) in Hcycle.
      injection Hcycle as <- <-. rewrite (cycle_unchanged _ Hc2).
      apply attempts_same. cbn [snd after_sleep sent].
      pose proof (compute_status_state st) as H1. rewrite Hc in H1.
      pose proof (compute_status_state (after_sleep RETRY_PERIOD st1)) as H2.
      rewrite Hc2 in H2. cbn [snd] in H1, H2. subst st3 st1. reflexivity.
    + intros Hneq Hsent.
      pose proof (cycle_delivered_or_failed st _ Hc Hneq Hcycle Hsent) as Hs1.
      cbn beta iota in Hs1. subst s1. rewrite (cycle_unchanged _ Hc2).
      apply attempts_one with (s, true). cbn [snd after_sleep sent].
      pose proof (compute_status_state st2) as H2. rewrite Hc2 in H2.
      cbn [snd] in H2. subst st3. exact Hsent.
    + intros Hneq Hsent.
      destruct (cycle_delivered_or_failed st _ Hc Hneq Hcycle Hsent)
        as (error & ->).
      pose proof (computed_status_differs (error:=error) _ Hc2) as Hdiff.
      destruct (cycle_attempt _ Hc2 Hdiff) as (delivered & Hsent4).
      apply attempts_two with (s, false) (s, delivered).
      rewrite Hsent4, Hsent. reflexivity.
Qed.

(** C5: when the status differs from [previous_status] and the call of
    the bot fails with an error, [send_message] raises [MessageNotSent];
    the turn made that one call, with the status and not with the failure
    text; it ends with the failure text as the new [previous_status], and
    the loop goes on to its next turn from there. *)
Theorem failed_notification (previous_status s : string)
    (st st1 : io_state) (error : exn) :
  compute_status py_lt py_str cfg w st = (Ok s, st1) ->
  s <> previous_status ->
  bot_send_message w (List.length (sent st1)) (TELEGRAM_CHAT_ID cfg) s
  = Raise error ->
  isinstance error Exception = true ->
  send_message cfg w s st1
  = (Raise (mkMessageNotSent ("Ошибка при отправке: " ++ exn_str error)),
     after_send s false st1)
  /\ failure_status error
     = "Не удалось отправить сообщение: " ++ "Ошибка при отправке: "
       ++ exn_str error
  /\ cycle py_lt py_str cfg w previous_status st
     = (Ok (failure_status error),
        after_sleep RETRY_PERIOD (after_send s false st1))
  /\ sent (after_sleep RETRY_PERIOD (after_send s false st1))
     = (sent st ++ [(s, false)])%list
  /\ forall n,
       loop py_lt py_str cfg w (S n) previous_status st
       = loop py_lt py_str cfg w n (failure_status error)
           (after_sleep RETRY_PERIOD (after_send s false st1)).
Proof.
  intros Hc Hneq Hbot Hcls.
  assert (Hcycle : cycle py_lt py_str cfg w previous_status st
                   = (Ok (failure_status error),
                      after_sleep RETRY_PERIOD (after_send s false st1))).
  { rewrite (cycle_eq _ _ Hc), (notify_failed _ Hneq Hbot Hcls). reflexivity. }
  split; [exact (send_message_failed _ _ Hbot Hcls)|].
  split; [reflexivity|]. split; [exact Hcycle|]. split.
  - cbn [after_sleep after_send sent].
    pose proof (compute_status_state st) as H. rewrite Hc in H.
    cbn [snd] in H. subst st1. reflexivity.
  - intros n. cbn [loop]. unfold bindIO. rewrite Hcycle. reflexivity.
Qed.

(** One turn in a world that raises errors only: the request is made,
    whatever the body of the first [try] raises is turned into the status
    of the turn, the bot is called when that status is new, a failure of
    that call is turned into the failure text, the process sleeps, and the
    loop goes on from there. *)
Lemma undisturbed_turn (previous_status : string) (st : io_state) :
  undisturbed w ->
  exists current_status new_status st',
    match fst (poll_status py_lt py_str cfg w st) with
    | Ok s => current_status = s
    | Raise error =>
        current_status
        = (if isinstance_any error
                [UnexpectedResponseData; RequestError; TypeError; KeyError]
           then "Технические неполадки: "
           else "Неизвестный сбой в работе: ") ++ exn_str error
    end
    /\ cycle py_lt py_str cfg w previous_status st = (Ok new_status, st')
    /\ requests_made st' = S (requests_made st)
    /\ slept st' = slept st + RETRY_PERIOD
    /\ (current_status = previous_status ->
        new_status = current_status /\ sent st' = sent st)
    /\ (current_status <> previous_status ->
        (new_status = current_status
         /\ sent st' = (sent st ++ [(current_status, true)])%list)
        \/ (exists cause,
              new_status = failure_status cause
              /\ sent st' = (sent st ++ [(current_status, false)])%list))
    /\ forall n,
         loop py_lt py_str cfg w (S n) previous_status st
         = loop py_lt py_str cfg w n new_status st'.
Proof.
  intros Hw. destruct (compute_status_total st Hw) as (s & Hc).
  assert (Hform :
            match fst (poll_status py_lt py_str cfg w st) with
            | Ok s0 => s = s0
            | Raise error =>
                s = (if isinstance_any error
                          [UnexpectedResponseData; RequestError; TypeError;
                           KeyError]
                     then "Технические неполадки: "
                     else "Неизвестный сбой в работе: ") ++ exn_str error
            end).
  { pose proof Hc as Hc'. rewrite compute_status_eq in Hc'.
    injection Hc' as Hs.
    pose proof (only_errors_poll_status st Hw) as Herr.
    destruct (fst (poll_status py_lt py_str cfg w st)) as [s0|error];
      cbn [status_of_outcome only_errors] in Hs, Herr.
    - congruence.
    - rewrite Herr in Hs. destruct (isinstance_any error _); congruence. }
  assert (Hnext : forall new_status st',
            cycle py_lt py_str cfg w previous_status st = (Ok new_status, st') ->
            forall n,
              loop py_lt py_str cfg w (S n) previous_status st
              = loop py_lt py_str cfg w n new_status st').
  { intros new_status st' Hcycle n. cbn [loop]. unfold bindIO.
    rewrite Hcycle. reflexivity. }
  destruct (String.eqb_spec s previous_status) as [Heq|Hneq].
  - exists s, s, (after_sleep RETRY_PERIOD (after_request st)).
    subst previous_status.
    pose proof (cycle_unchanged st Hc) as Hcycle.
    split; [exact Hform|]. split; [exact Hcycle|].
    split; [reflexivity|]. split; [reflexivity|].
    split; [intros _; split; reflexivity|].
    split; [intros Hne; contradiction|]. exact (Hnext _ _ Hcycle).
  - destruct Hw as [_ Hbot].
    specialize (Hbot (List.length (sent (after_request st)))
                  (TELEGRAM_CHAT_ID cfg) s).
    destruct (bot_send_message w (List.length (sent (after_request st)))
                (TELEGRAM_CHAT_ID cfg) s) as [[]|cause] eqn:Hsend.
    + assert (Hcycle :
                cycle py_lt py_str cfg w previous_status st
                = (Ok s, after_sleep RETRY_PERIOD
                           (after_send s true (after_request st)))).
      { rewrite (cycle_eq previous_status st Hc),
          (notify_delivered (after_request st) Hneq Hsend).
        reflexivity. }
      exists s, s, (after_sleep RETRY_PERIOD
                      (after_send s true (after_request st))).
      split; [exact Hform|]. split; [exact Hcycle|].
      split; [reflexivity|]. split; [reflexivity|].
      split; [intros Heq; contradiction|].
      split; [intros _; left; split; reflexivity|]. exact (Hnext _ _ Hcycle).
    + cbn [only_errors] in Hbot.
      assert (Hcycle :
                cycle py_lt py_str cfg w previous_status st
                = (Ok (failure_status cause),
                   after_sleep RETRY_PERIOD
                     (after_send s false (after_request st)))).
      { rewrite (cycle_eq previous_status st Hc),
          (notify_failed (after_request st) Hneq Hsend Hbot).
        reflexivity. }
      exists s, (failure_status cause),
        (after_sleep RETRY_PERIOD (after_send s false (after_request st))).
      split; [exact Hform|]. split; [exact Hcycle|].
      split; [reflexivity|]. split; [reflexivity|].
      split; [intros Heq; contradiction|].
      split; [|exact (Hnext _ _ Hcycle)].
      intros _. right. exists cause. split; reflexivity.
Qed.

(** C2, as the code has it.  At start-up [main] can end in two ways:
    with a value of the configuration missing it leaves through
    [sys.exit] with its message, and when [TeleBot] refuses the token its
    exception leaves [main]; in both cases nothing has been requested.
    Otherwise the loop is entered, and in a world that raises errors only
    it never ends: in every turn the request is made, whatever the body of
    the first [try] raises becomes the status of the turn (under the
    heading of the known classes or under that of the unknown ones), the
    bot is called when the status is new, a failure of that call becomes
    the failure text, the process sleeps, and the next turn starts; after
    any number of turns the loop is still running. *)
Theorem main_never_stops :
  undisturbed w ->
  (check_tokens cfg = false ->
   forall n st,
     main py_lt py_str cfg w n st
     = (Raise (mk_exn SystemExit "Не все переменные окружения доступны"),
        st))
  /\ (check_tokens cfg = true ->
      forall error,
        TeleBot w (TELEGRAM_TOKEN cfg) = Raise error ->
        forall n st, main py_lt py_str cfg w n st = (Raise error, st))
  /\ (check_tokens cfg = true ->
      TeleBot w (TELEGRAM_TOKEN cfg) = Ok tt ->
      forall n st,
        main py_lt py_str cfg w n st
        = loop py_lt py_str cfg w n EmptyString st)
  /\ (forall previous_status st,
      exists current_status new_status st',
        match fst (poll_status py_lt py_str cfg w st) with
        | Ok s => current_status = s
        | Raise error =>
            current_status
            = (if isinstance_any error
                    [UnexpectedResponseData; RequestError; TypeError; KeyError]
               then "Технические неполадки: "
               else "Неизвестный сбой в работе: ") ++ exn_str error
        end
        /\ cycle py_lt py_str cfg w previous_status st = (Ok new_status, st')
        /\ requests_made st' = S (requests_made st)
        /\ slept st' = slept st + RETRY_PERIOD
        /\ (current_status = previous_status ->
            new_status = current_status /\ sent st' = sent st)
        /\ (current_status <> previous_status ->
            (new_status = current_status
             /\ sent st' = (sent st ++ [(current_status, true)])%list)
            \/ (exists cause,
                  new_status = failure_status cause
                  /\ sent st' = (sent st ++ [(current_status, false)])%list))
        /\ forall n,
             loop py_lt py_str cfg w (S n) previous_status st
             = loop py_lt py_str cfg w n new_status st')
  /\ (forall n previous_status st,
      exists new_status st',
        loop py_lt py_str cfg w n previous_status st = (Ok new_status, st')
        /\ requests_made st' = (requests_made st + n)%nat).
Proof.
  intros Hw. split; [|split; [|split; [|split]]].
  - intros Hcfg n st. unfold main. rewrite Hcfg. reflexivity.
  - intros Hcfg error Hbot n st. unfold main, bindIO, liftIO.
    rewrite Hcfg, Hbot. reflexivity.
  - intros Hcfg Hbot n st. unfold main, bindIO, liftIO.
    rewrite Hcfg, Hbot. reflexivity.
  - intros previous_status st. exact (undisturbed_turn previous_status st Hw).
  - intros n previous_status st.
    destruct (loop_total n Hw previous_status st)
      as (s' & st' & Hloop & Hreq & _).
    exists s', st'. split; assumption.
Qed.

End MainLoop.

(** ** The program on the sample data *)

Lemma undisturbed_good_world : undisturbed good_world.
Proof.
  split.
  - intros k p. split; [exact I|]. intros r [= <-]. exact I.
  - intros k chat_id message. exact I.
Qed.

Lemma undisturbed_flaky_bot_world : undisturbed flaky_bot_world.
Proof.
  split.
  - intros k p. split; [exact I|]. intros r [= <-]. exact I.
  - intros [|k] chat_id message; [reflexivity|exact I].
Qed.

(** An interrupt from outside is no error: it goes through both handlers
    and ends [main]. *)
Example interrupt_leaves_loop :
  fst (main sample_lt sample_str sample_cfg interrupted_world 2 initial)
  = Raise (mk_exn KeyboardInterrupt EmptyString).
Proof. vm_compute. reflexivity. Qed.

(** C3, at an answer whose status code [HTTPStatus] does not list: with
    status 599 [get_api_answer] raises the [ValueError] of the enumeration,
    which is no [RequestError]; the claim asks for a [RequestError] with
    code, phrase and body on every status other than 200. *)
Theorem get_api_answer_status_599 :
  get_api_answer sample_cfg world_599 0 initial
  = (Raise (mkValueError "599 is not a valid HTTPStatus"),
     after_request initial)
  /\ isinstance (mkValueError "599 is not a valid HTTPStatus") RequestError
     = false.
Proof. split; vm_compute; reflexivity. Qed.

Lemma get_api_answer_roundtrip_witness :
  get_api_answer sample_cfg good_world 0 initial
  = (Ok sample_answer, after_request initial)
  /\ requests_made (snd (get_api_answer sample_cfg good_world 0 initial))
     = 1%nat.
Proof.
  apply (get_api_answer_roundtrip sample_cfg good_world 0 initial
           (r := mk_response 200 "{...}" (Ok sample_answer)));
    reflexivity.
Defined.

Lemma get_api_answer_status_classes_witness :
  fst (get_api_answer sample_cfg world_599 0 initial)
  = Raise (mkValueError "599 is not a valid HTTPStatus").
Proof.
  refine (proj1 (get_api_answer_status_classes sample_cfg world_599 0 initial
                   (r := mk_response 599 "<html>busy</html>" not_json)
                   eq_refl _) eq_refl).
  intros error [= <-]. reflexivity.
Defined.

Lemma get_latest_homework_first_of_latest_witness :
  (exists (i : nat) (latest : pyobj) (date : string),
     get_latest_homework sample_lt sample_answer = Ok latest
     /\ nth_error [hw1; hw2; hw3] i = Some latest
     /\ date_updated latest = Some date
     /\ (forall homework s,
           In homework [hw1; hw2; hw3] -> date_updated homework = Some s ->
           (date <? s)%string = false)
     /\ (forall j homework s,
           (j < i)%nat -> nth_error [hw1; hw2; hw3] j = Some homework ->
           date_updated homework = Some s -> (s <? date)%string = true))
  /\ get_latest_homework sample_lt undated_answer
     = Raise (mkKeyError "Не у всех работ указана дата обновления").
Proof.
  split.
  - refine (proj1 (get_latest_homework_first_of_latest sample_lt
                     (fun a b => eq_refl)
                     [("homeworks", PyList [hw1; hw2; hw3])] eq_refl) _ _).
    + discriminate.
    + repeat constructor; eexists; reflexivity.
  - refine (proj2 (get_latest_homework_first_of_latest sample_lt
                     (fun a b => eq_refl)
                     [("homeworks", PyList [hw1; undated_item])] eq_refl) _ _).
    + repeat constructor.
    + right. left. eexists. split; reflexivity.
Defined.

(** C8 as stated fails twice: the text returned for [hw1] is not the
    English one, and a status that is a list makes [parse_status] raise
    [TypeError], not [KeyError]. *)
Lemma parse_status_counterexample :
  parse_status sample_str hw1
  <> Ok ("Changed review status for " ++ dquote ++ "hw1" ++ dquote ++ ". "
         ++ "Работа проверена: ревьюеру всё понравилось. Ура!")
  /\ parse_status sample_str unhashable_item
     = Raise (mkTypeError "unhashable type: 'list'").
Proof.
  split.
  - intros H. vm_compute in H. discriminate.
  - vm_compute. reflexivity.
Qed.

(** C1 as stated fails in both directions.  With a bot whose first call
    fails, the first two turns compute the same status and call the bot
    twice; with a status that equals [previous_status] from the start, two
    turns compute the same status and never call the bot. *)
Lemma dedup_counterexample :
  (exists s1 st1 st2,
     cycle sample_lt sample_str sample_cfg flaky_bot_world EmptyString initial
     = (Ok s1, st1)
     /\ fst (compute_status sample_lt sample_str sample_cfg flaky_bot_world
               initial) = Ok sample_status
     /\ fst (compute_status sample_lt sample_str sample_cfg flaky_bot_world st1)
        = Ok sample_status
     /\ snd (cycle sample_lt sample_str sample_cfg flaky_bot_world s1 st1) = st2
     /\ attempts initial st2 = 2%nat)
  /\ (exists s1 st1 st2,
        cycle sample_lt sample_str sample_cfg good_world sample_status initial
        = (Ok s1, st1)
        /\ fst (compute_status sample_lt sample_str sample_cfg good_world
                  initial) = Ok sample_status
        /\ fst (compute_status sample_lt sample_str sample_cfg good_world st1)
           = Ok sample_status
        /\ snd (cycle sample_lt sample_str sample_cfg good_world s1 st1) = st2
        /\ attempts initial st2 = 0%nat).
Proof.
  split; eexists _, _, _.
  - split; [vm_compute; reflexivity|]. repeat split; vm_compute; reflexivity.
  - split; [vm_compute; reflexivity|]. repeat split; vm_compute; reflexivity.
Qed.

Lemma notification_dedup_witness :
  exists s1 st2,
    cycle sample_lt sample_str sample_cfg good_world EmptyString initial
    = (Ok s1, st2)
    /\ attempts initial
         (snd (cycle sample_lt sample_str sample_cfg good_world s1 st2))
       = 1%nat.
Proof.
  exists sample_status,
    (after_sleep RETRY_PERIOD
       (after_send sample_status true (after_request initial))).
  assert (Hcycle :
            cycle sample_lt sample_str sample_cfg good_world EmptyString initial
            = (Ok sample_status,
               after_sleep RETRY_PERIOD
                 (after_send sample_status true (after_request initial))))
    by (vm_compute; reflexivity).
  split; [exact Hcycle|].
  refine (proj1 (proj2 (proj2 (proj2
            (@notification_dedup sample_lt sample_str sample_cfg good_world
               EmptyString sample_status initial (after_request initial) _))
            _ _ (after_request
                   (after_sleep RETRY_PERIOD
                      (after_send sample_status true (after_request initial))))
            Hcycle _)) _ _).
  - vm_compute. reflexivity.
  - vm_compute. reflexivity.
  - vm_compute. discriminate.
  - vm_compute. reflexivity.
Defined.

Lemma failed_notification_witness :
  cycle sample_lt sample_str sample_cfg flaky_bot_world EmptyString initial
  = (Ok (failure_status (mk_exn Exception "Bad Gateway")),
     after_sleep RETRY_PERIOD
       (after_send sample_status false (after_request initial))).
Proof.
  refine (proj1 (proj2 (proj2
            (@failed_notification sample_lt sample_str sample_cfg
               flaky_bot_world EmptyString sample_status initial
               (after_request initial) (mk_exn Exception "Bad Gateway")
               _ _ _ _)))).
  - vm_compute. reflexivity.
  - vm_compute. discriminate.
  - reflexivity.
  - reflexivity.
Defined.

(** C2 as stated fails at start-up: with the three values present but a
    token that [TeleBot] refuses, [main] ends with the [ValueError] of the
    constructor, in a world that is otherwise undisturbed. *)
Lemma startup_counterexample :
  check_tokens colonless_cfg = true
  /\ undisturbed picky_world
  /\ main sample_lt sample_str colonless_cfg picky_world 3 initial
     = (Raise (mk_exn ValueError "Token must contain a colon"), initial).
Proof.
  split; [reflexivity|]. split; [|reflexivity].
  split.
  - intros k p. split; [exact I|]. intros r [= <-]. exact I.
  - intros k chat_id message. exact I.
Qed.

Lemma undisturbed_stormy_world : undisturbed stormy_world.
Proof.
  split.
  - intros [|[|k]] p; (split; [try exact I; reflexivity|]);
      intros r; try discriminate; intros [= <-]; try exact I; reflexivity.
  - intros [|k] chat_id message; [reflexivity|exact I].
Qed.

(** Three turns in a world where the first request times out, the second
    answer has status 599 and the first call of the bot fails: each
    failure has become a status, and the loop is still running. *)
Example stormy_run :
  main sample_lt sample_str sample_cfg stormy_world 3 initial
  = (Ok sample_status,
     mk_io 3
       [("Технические неполадки: "
         ++ "Ошибка при совершении запроса к API: Read timed out.", false);
        ("Неизвестный сбой в работе: 599 is not a valid HTTPStatus", true);
        (sample_status, true)]
       1800).
Proof. vm_compute. reflexivity. Qed.

Lemma main_never_stops_witness :
  exists current_status new_status st',
    match fst (poll_status sample_lt sample_str sample_cfg stormy_world
                 initial) with
    | Ok s => current_status = s
    | Raise error =>
        current_status
        = (if isinstance_any error
                [UnexpectedResponseData; RequestError; TypeError; KeyError]
           then "Технические неполадки: "
           else "Неизвестный сбой в работе: ") ++ exn_str error
    end
    /\ cycle sample_lt sample_str sample_cfg stormy_world EmptyString initial
       = (Ok new_status, st')
    /\ requests_made st' = S (requests_made initial)
    /\ slept st' = slept initial + RETRY_PERIOD
    /\ (current_status = EmptyString ->
        new_status = current_status /\ sent st' = sent initial)
    /\ (current_status <> EmptyString ->
        (new_status = current_status
         /\ sent st' = (sent initial ++ [(current_status, true)])%list)
        \/ (exists cause,
              new_status = failure_status cause
              /\ sent st'
                 = (sent initial ++ [(current_status, false)])%list))
    /\ forall n,
         loop sample_lt sample_str sample_cfg stormy_world (S n) EmptyString
           initial
         = loop sample_lt sample_str sample_cfg stormy_world n new_status st'.
Proof.
  exact (proj1 (proj2 (proj2 (proj2
           (@main_never_stops sample_lt sample_str sample_cfg stormy_world
              undisturbed_stormy_world))))
           EmptyString initial).
Defined.

(** * Further properties *)

(** ** The notifier and the API client on their own *)

Lemma not_error_not_RequestException (error : exn) :
  isinstance error Exception = false ->
  isinstance error RequestException = false.
Proof. destruct error as [[] msg]; vm_compute; congruence. Qed.

Lemma not_error_not_known (error : exn) :
  isinstance error Exception = false ->
  isinstance_any error known_classes = false.
Proof. destruct error as [[] msg]; vm_compute; congruence. Qed.

Section Calls.

Variables (cfg : config) (w : world).

(** X1: [send_message] calls the bot exactly once, with the configured
    chat and the text it was given, and touches nothing else; it returns
    when that call returns; the only error it ever raises is
    [MessageNotSent], whose text quotes the cause; what is no error (an
    interrupt) leaves it unchanged. *)
Theorem send_message_contract (message : string) (st : io_state) :
  let outcome :=
    bot_send_message w (List.length (sent st)) (TELEGRAM_CHAT_ID cfg) message in
  snd (send_message cfg w message st) = after_send message (is_ok outcome) st
  /\ (outcome = Ok tt -> fst (send_message cfg w message st) = Ok tt)
  /\ (forall cause,
        outcome = Raise cause ->
        fst (send_message cfg w message st)
        = Raise (if isinstance cause Exception
                 then mkMessageNotSent ("Ошибка при отправке: " ++ exn_str cause)
                 else cause))
  /\ (forall error,
        fst (send_message cfg w message st) = Raise error ->
        isinstance error Exception = true ->
        exn_class error = MessageNotSent).
Proof.
  intros outcome. subst outcome.
  unfold send_message, try_exceptIO, io_bot_send_message.
  cbn [select_clause isinstance_any existsb].
  destruct (bot_send_message w _ _ message) as [[]|cause] eqn:Hbot.
  - repeat split; try discriminate.
  - rewrite orb_false_r.
    destruct (isinstance cause Exception) eqn:Hcls; cbn [fst snd is_ok].
    + repeat split; try discriminate.
      * intros c [= <-]. rewrite Hcls. reflexivity.
      * intros error [= <-] _. reflexivity.
    + repeat split; try discriminate.
      * intros c [= <-]. rewrite Hcls. reflexivity.
      * intros error [= <-] Herr. congruence.
Qed.

Variables (timestamp : Z) (st : io_state).

(** X2: when [requests.get] fails with a [RequestException] (a
    [ConnectionError] and a [Timeout] are such), [get_api_answer] raises
    [RequestError] with the cause in its text, after that one request and
    without touching the bot. *)
Theorem transport_failure_wrapped (cause : exn) :
  requests_get w (requests_made st) (api_request cfg timestamp) = Raise cause ->
  In (exn_class cause) [RequestException; ConnectionError; Timeout] ->
  get_api_answer cfg w timestamp st
  = (Raise (mk_exn RequestError
              ("Ошибка при совершении запроса к API: " ++ exn_str cause)),
     after_request st).
Proof.
  intros Hget Hcls. apply get_api_answer_transport; [assumption|].
  destruct cause as [c msg]. cbn [exn_class] in Hcls.
  destruct Hcls as [<-|[<-|[<-|[]]]]; reflexivity.
Qed.

(** X3: a 200 answer whose body does not decode ([response.json()]
    raises a [ValueError], such as [JSONDecodeError]) makes
    [get_api_answer] raise [UnexpectedResponseData] with the cause in its
    text. *)
Theorem undecodable_body_wrapped (r : Response) (cause : exn) :
  requests_get w (requests_made st) (api_request cfg timestamp) = Ok r ->
  status_code r = 200 ->
  json r = Raise cause ->
  In (exn_class cause) [ValueError; JSONDecodeError] ->
  get_api_answer cfg w timestamp st
  = (Raise (mk_exn UnexpectedResponseData
              ("Не удалось распарсить ответ: " ++ exn_str cause)),
     after_request st).
Proof.
  intros Hget Hcode Hjson Hcls.
  apply get_api_answer_not_json with r; try assumption.
  destruct cause as [c msg]. cbn [exn_class] in Hcls.
  destruct Hcls as [<-|[<-|[]]]; reflexivity.
Qed.

(** X4: [get_api_answer] handles nothing else: an exception of
    [requests.get] that is no [RequestException], and on a 200 answer an
    exception of [response.json()] that is no [ValueError], leave it as
    they are. *)
Theorem get_api_answer_passes_other_exceptions :
  (forall error,
     requests_get w (requests_made st) (api_request cfg timestamp) = Raise error ->
     isinstance error RequestException = false ->
     get_api_answer cfg w timestamp st = (Raise error, after_request st))
  /\ (forall r error,
        requests_get w (requests_made st) (api_request cfg timestamp) = Ok r ->
        status_code r = 200 ->
        json r = Raise error ->
        isinstance error ValueError = false ->
        get_api_answer cfg w timestamp st = (Raise error, after_request st)).
Proof.
  split.
  - intros error Hget Hcls.
    unfold get_api_answer, bindIO, try_exceptIO, io_requests_get.
    rewrite Hget. cbn [select_clause isinstance_any existsb].
    rewrite Hcls. reflexivity.
  - intros r error Hget Hcode Hjson Hcls.
    rewrite (get_api_answer_ok_status _ _ _ _ Hget Hcode), Hjson, Hcls.
    reflexivity.
Qed.

End Calls.

(** ** The validator and the resolver on their own *)

Lemma check_response_ok_inv (response : pyobj) :
  check_response response = Ok tt ->
  exists d homework rest,
    response = PyDict d
    /\ dict_get d "homeworks" = Some (PyList (homework :: rest)).
Proof.
  destruct response as [| | | | | |d]; try discriminate.
  unfold check_response.
  cbn [isinstance_dict negb py_contains py_getitem bind]. unfold dict_has.
  destruct (dict_get d "homeworks") as [v|] eqn:Hget; [|discriminate].
  cbn [negb bind].
  destruct v as [| | | | |l|]; try discriminate.
  destruct l as [|homework rest]; [discriminate|].
  intros _. exists d, homework, rest. split; [reflexivity|assumption].
Qed.

(** X5: [check_response] returns exactly on a [dict] that holds a
    non-empty [list] under [homeworks]; on everything else it raises. *)
Theorem check_response_ok_iff (response : pyobj) :
  check_response response = Ok tt
  <-> exists d homework rest,
        response = PyDict d
        /\ dict_get d "homeworks" = Some (PyList (homework :: rest)).
Proof.
  split; [apply check_response_ok_inv|].
  intros (d & homework & rest & -> & Hget).
  unfold check_response.
  cbn [isinstance_dict negb py_contains py_getitem bind]. unfold dict_has.
  rewrite Hget. reflexivity.
Qed.

Lemma mapM_Forall2 (A B : Type) (f : A -> result B) (l : list A)
    (r : list B) :
  mapM f l = Ok r -> Forall2 (fun x y => f x = Ok y) l r.
Proof.
  revert r. induction l as [|x rest IH]; intros r; cbn [mapM].
  - intros [= <-]. constructor.
  - destruct (f x) as [y|] eqn:Hx; [|discriminate]. cbn [bind].
    destruct (mapM f rest) as [ys|]; [|discriminate]. cbn [bind].
    intros [= <-]. constructor; [assumption|]. apply IH. reflexivity.
Qed.

Lemma py_getitem_ok_inv (container : pyobj) (key : string) (v : pyobj) :
  py_getitem container key = Ok v ->
  exists d, container = PyDict d /\ dict_get d key = Some v.
Proof.
  destruct container as [| | | | | |d]; try discriminate.
  cbn [py_getitem]. destruct (dict_get d key) as [v'|] eqn:Hget;
    [|discriminate].
  intros [= <-]. exists d. split; [reflexivity|assumption].
Qed.

Lemma list_first_In (A : Type) (l : list A) (x : A) :
  list_first l = Ok x -> In x l.
Proof. destruct l; [discriminate|]. intros [= <-]. left. reflexivity. Qed.

Section Resolver.

Variable py_lt : pyobj -> pyobj -> option bool.
Variable py_str : pyobj -> string.

Lemma insert_keyed_In (x : pyobj * pyobj) (l r : list (pyobj * pyobj)) :
  insert_keyed py_lt x l = Ok r -> forall y, In y r -> y = x \/ In y l.
Proof.
  revert r. induction l as [|z rest IH]; intros r; cbn [insert_keyed].
  - intros [= <-] y [<-|[]]. left. reflexivity.
  - destruct (py_less py_lt (fst z) (fst x)) as [[|]|]; cbn [bind];
      [|intros [= <-] y [<-|Hy]; [left; reflexivity|right; assumption]
       |discriminate].
    destruct (insert_keyed py_lt x rest) as [rest'|]; [|discriminate].
    cbn [bind]. intros [= <-] y [<-|Hy]; [right; left; reflexivity|].
    destruct (IH rest' eq_refl y Hy) as [->|Hin];
      [left; reflexivity|right; right; assumption].
Qed.

Lemma stable_sort_In (l r : list (pyobj * pyobj)) :
  stable_sort py_lt l = Ok r -> forall y, In y r -> In y l.
Proof.
  revert r. induction l as [|x rest IH]; intros r; cbn [stable_sort].
  - intros [= <-] y [].
  - destruct (stable_sort py_lt rest) as [s|]; [|discriminate]. cbn [bind].
    intros Hins y Hy.
    destruct (insert_keyed_In _ _ Hins y Hy) as [->|Hin];
      [left; reflexivity|right; exact (IH s eq_refl y Hin)].
Qed.

(** The elements [sorted] returns are among those it was given, and the
    key could be computed for each of those. *)
Lemma sorted_ok_inv (iterable : pyobj) (key : pyobj -> result pyobj)
    (reverse : bool) (ordered : list pyobj) :
  sorted py_lt iterable key reverse = Ok ordered ->
  exists items,
    py_iter iterable = Ok items
    /\ Forall (fun x => exists k, key x = Ok k) items
    /\ forall x, In x ordered -> In x items.
Proof.
  unfold sorted.
  destruct (py_iter iterable) as [items|]; [|discriminate]. cbn [bind].
  destruct (mapM key items) as [keys|] eqn:Hkeys; [|discriminate].
  cbn [bind].
  destruct (stable_sort py_lt _) as [s|] eqn:Hsort; [|discriminate].
  cbn [bind]. intros [= <-]. exists items. split; [reflexivity|]. split.
  - apply mapM_Forall2 in Hkeys. clear Hsort.
    induction Hkeys as [|x k xs ks Hx _ IH]; constructor;
      [exists k; assumption|assumption].
  - intros x Hx. apply in_map_iff in Hx. destruct Hx as ([k x'] & <- & Hin).
    assert (Hin' : In (k, x') s) by (destruct reverse; [apply in_rev|]; exact Hin).
    apply (stable_sort_In _ Hsort) in Hin'.
    assert (Hin'' : In (k, x') (combine keys items))
      by (destruct reverse; [apply in_rev|]; exact Hin').
    exact (in_combine_r _ _ _ _ Hin'').
Qed.

(** X6: [get_latest_homework] returns only on a [dict] whose [homeworks]
    is a [list] of [dict]s that all carry [date_updated], and what it
    returns is one of the items of that list. *)
Theorem get_latest_homework_ok_inv (response latest : pyobj) :
  get_latest_homework py_lt response = Ok latest ->
  exists d items,
    response = PyDict d
    /\ dict_get d "homeworks" = Some (PyList items)
    /\ Forall has_date items
    /\ In latest items.
Proof.
  unfold get_latest_homework.
  destruct (py_getitem response "homeworks") as [homeworks|] eqn:Hget;
    [|discriminate].
  cbn [bind].
  destruct (py_getitem_ok_inv _ _ Hget) as (d & -> & Hd).
  destruct (py_iter homeworks) as [items|] eqn:Hiter; [|discriminate].
  cbn [bind].
  destruct (for_each items check_date); [|discriminate]. cbn [bind].
  destruct (sorted py_lt homeworks _ true) as [ordered|] eqn:Hsorted;
    [|discriminate].
  cbn [bind]. intros Hfirst. apply list_first_In in Hfirst.
  destruct (sorted_ok_inv _ _ _ Hsorted) as (items' & Hiter' & Hkeys & Hsub).
  rewrite Hiter in Hiter'. injection Hiter' as <-.
  assert (Hdates : Forall has_date items).
  { eapply Forall_impl; [|exact Hkeys]. intros x (k & Hk).
    destruct (py_getitem_ok_inv _ _ Hk) as (dx & -> & Hdx).
    exists dx, k. split; [reflexivity|assumption]. }
  assert (Hlist : homeworks = PyList items).
  { specialize (Hsub latest Hfirst).
    rewrite Forall_forall in Hdates.
    destruct (Hdates latest Hsub) as (dl & vl & -> & _).
    destruct homeworks as [| | | |s|l|dh]; try discriminate.
    - injection Hiter as <-. apply in_map_iff in Hsub.
      destruct Hsub as (c & Hc & _). discriminate.
    - injection Hiter as <-. reflexivity.
    - injection Hiter as <-. apply in_map_iff in Hsub.
      destruct Hsub as (kv & Hkv & _). discriminate. }
  exists d, items. subst homeworks. repeat split; auto.
Qed.

(** X7: on an empty list of homeworks [get_latest_homework] raises
    [IndexError]: the caller has to rule the empty list out, as the
    docstring asks. *)
Theorem get_latest_homework_empty (d : dict) :
  dict_get d "homeworks" = Some (PyList []) ->
  get_latest_homework py_lt (PyDict d)
  = Raise (mk_exn IndexError "list index out of range").
Proof.
  intros Hget. unfold get_latest_homework. cbn [py_getitem].
  rewrite Hget. reflexivity.
Qed.

(** X8: with a single homework no dates are compared: whatever is stored
    under [date_updated], a [str] or not, the item is returned. *)
Theorem get_latest_homework_single (d item : dict) (date : pyobj) :
  dict_get d "homeworks" = Some (PyList [PyDict item]) ->
  dict_get item "date_updated" = Some date ->
  get_latest_homework py_lt (PyDict d) = Ok (PyDict item).
Proof.
  intros Hget Hdate. unfold get_latest_homework. cbn [py_getitem].
  rewrite Hget. cbn [bind py_iter for_each]. unfold check_date at 1.
  cbn [py_contains]. unfold dict_has. rewrite Hdate. cbn [bind negb].
  unfold sorted. cbn [py_iter bind mapM py_getitem]. rewrite Hdate.
  reflexivity.
Qed.

(** X9: two homeworks whose dates [<] cannot compare (a [str] and [None],
    say) make [get_latest_homework] raise [TypeError]. *)
Theorem get_latest_homework_incomparable (d first second : dict)
    (date1 date2 : pyobj) :
  dict_get d "homeworks" = Some (PyList [PyDict first; PyDict second]) ->
  dict_get first "date_updated" = Some date1 ->
  dict_get second "date_updated" = Some date2 ->
  py_lt date1 date2 = None ->
  py_lt date2 date1 = None ->
  exists error,
    get_latest_homework py_lt (PyDict d) = Raise error
    /\ exn_class error = TypeError.
Proof.
  intros Hget H1 H2 H12 H21. unfold get_latest_homework. cbn [py_getitem].
  rewrite Hget. cbn [bind py_iter for_each]. unfold check_date.
  cbn [py_contains]. unfold dict_has. rewrite H1, H2. cbn [bind negb].
  unfold sorted. cbn [py_iter bind mapM py_getitem]. rewrite H1, H2.
  cbn [bind combine rev app stable_sort insert_keyed fst].
  unfold py_less. rewrite H12. eexists. split; reflexivity.
Qed.

(** X10: [parse_status] returns only on a [dict] that has both keys and
    whose status is a key of the vocabulary; what it returns is then the
    text built from the name and the verdict.  On anything that is no
    [dict] it raises. *)
Theorem parse_status_ok_inv (homework : pyobj) (message : string) :
  parse_status py_str homework = Ok message ->
  exists d name status verdict,
    homework = PyDict d
    /\ dict_get d "homework_name" = Some name
    /\ dict_get d "status" = Some (PyStr status)
    /\ verdict_of HOMEWORK_VERDICTS status = Some verdict
    /\ message = "Изменился статус проверки работы " ++ dquote
                 ++ py_str name ++ dquote ++ ". " ++ verdict.
Proof.
  unfold parse_status.
  destruct homework as [| | | |s|l|d]; try discriminate.
  - cbn [py_contains bind py_getitem].
    destruct (negb (str_contains "homework_name" s)); [discriminate|].
    destruct (negb (str_contains "status" s)); discriminate.
  - cbn [py_contains bind py_getitem].
    destruct (negb (existsb _ l)); [discriminate|].
    destruct (negb (existsb _ l)); discriminate.
  - cbn [py_contains bind py_getitem]. unfold dict_has.
    destruct (dict_get d "homework_name") as [name|] eqn:Hname;
      [|discriminate].
    destruct (dict_get d "status") as [status|] eqn:Hstatus; [|discriminate].
    cbn [negb bind].
    destruct status as [| | | |st| |];
      cbn [verdicts_contains verdicts_getitem py_hashable bind negb];
      try discriminate.
    destruct (verdict_of HOMEWORK_VERDICTS st) as [verdict|] eqn:Hverdict;
      [|discriminate].
    cbn [negb bind]. intros [= <-].
    exists d, name, st, verdict. repeat split; assumption.
Qed.

End Resolver.

(** ** Which errors the pipeline raises *)

Lemma only_known_bind (A B : Type) (m : result A) (k : A -> result B) :
  only_known m -> (forall a, only_known (k a)) -> only_known (bind m k).
Proof. destruct m as [a|error]; simpl; auto. Qed.

Create HintDb known.

Ltac known :=
  repeat
    match goal with
    | |- only_known (bind _ _) => apply only_known_bind; [|intros ?]
    | |- only_known (Ok _) => exact I
    | |- only_known (Raise _) => reflexivity
    | |- only_known (if ?b then _ else _) => destruct b
    | |- only_known (match ?x with _ => _ end) => destruct x
    | |- only_known _ => solve [auto with known]
    end.

Lemma only_known_py_contains (key : string) (container : pyobj) :
  only_known (py_contains key container).
Proof. unfold py_contains. known. Qed.

Lemma only_known_py_getitem (container : pyobj) (key : string) :
  only_known (py_getitem container key).
Proof. unfold py_getitem. known. Qed.

Lemma only_known_py_hashable (x : pyobj) : only_known (py_hashable x).
Proof. unfold py_hashable. known. Qed.

#[local] Hint Resolve only_known_py_contains only_known_py_getitem
  only_known_py_hashable : known.

Lemma only_known_check_date (homework : pyobj) :
  only_known (check_date homework).
Proof. unfold check_date. known. Qed.

Lemma only_known_for_each (A : Type) (body : A -> result unit)
    (items : list A) :
  (forall x, only_known (body x)) -> only_known (for_each items body).
Proof.
  intros Hbody. induction items as [|x rest IH]; cbn [for_each]; known.
Qed.

Lemma only_known_mapM (A B : Type) (f : A -> result B) (l : list A) :
  (forall x, only_known (f x)) -> only_known (mapM f l).
Proof. intros Hf. induction l as [|x rest IH]; cbn [mapM]; known. Qed.

Lemma only_known_check_response (response : pyobj) :
  only_known (check_response response).
Proof. unfold check_response. known. Qed.

Lemma only_known_verdicts_contains (key : pyobj) :
  only_known (verdicts_contains key).
Proof. unfold verdicts_contains. known. Qed.

#[local] Hint Resolve only_known_check_date only_known_for_each
  only_known_mapM only_known_verdicts_contains : known.

Lemma mapM_length (A B : Type) (f : A -> result B) (l : list A)
    (r : list B) :
  mapM f l = Ok r -> List.length r = List.length l.
Proof.
  intros H. apply mapM_Forall2 in H. symmetry.
  induction H; simpl; congruence.
Qed.

Section KnownErrors.

Variable py_lt : pyobj -> pyobj -> option bool.
Variable py_str : pyobj -> string.

Lemma only_known_py_less (a b : pyobj) : only_known (py_less py_lt a b).
Proof. unfold py_less. known. Qed.

Lemma only_known_verdicts_getitem (key : pyobj) :
  only_known (verdicts_getitem py_str key).
Proof. unfold verdicts_getitem. known. Qed.

#[local] Hint Resolve only_known_py_less only_known_verdicts_getitem : known.

Lemma only_known_insert_keyed (x : pyobj * pyobj) (l : list (pyobj * pyobj)) :
  only_known (insert_keyed py_lt x l).
Proof. induction l as [|y rest IH]; cbn [insert_keyed]; known. Qed.

#[local] Hint Resolve only_known_insert_keyed : known.

Lemma only_known_stable_sort (l : list (pyobj * pyobj)) :
  only_known (stable_sort py_lt l).
Proof. induction l as [|x rest IH]; cbn [stable_sort]; known. Qed.

Lemma insert_keyed_length (x : pyobj * pyobj) (l r : list (pyobj * pyobj)) :
  insert_keyed py_lt x l = Ok r -> List.length r = S (List.length l).
Proof.
  revert r. induction l as [|z rest IH]; intros r; cbn [insert_keyed].
  - intros [= <-]. reflexivity.
  - destruct (py_less py_lt (fst z) (fst x)) as [[|]|]; cbn [bind];
      [|intros [= <-]; reflexivity|discriminate].
    destruct (insert_keyed py_lt x rest) as [rest'|]; [|discriminate].
    cbn [bind]. intros [= <-]. cbn [List.length].
    rewrite (IH rest' eq_refl). reflexivity.
Qed.

Lemma stable_sort_length (l r : list (pyobj * pyobj)) :
  stable_sort py_lt l = Ok r -> List.length r = List.length l.
Proof.
  revert r. induction l as [|x rest IH]; intros r; cbn [stable_sort].
  - intros [= <-]. reflexivity.
  - destruct (stable_sort py_lt rest) as [s|]; [|discriminate]. cbn [bind].
    intros Hins. rewrite (insert_keyed_length _ _ Hins), (IH s eq_refl).
    reflexivity.
Qed.

Lemma only_known_parse_status (homework : pyobj) :
  only_known (parse_status py_str homework).
Proof. unfold parse_status. known. Qed.

(** Once the list is known not to be empty, [IndexError] is out of
    reach. *)
Lemma only_known_get_latest_homework (d : dict) (homework : pyobj)
    (rest : list pyobj) :
  dict_get d "homeworks" = Some (PyList (homework :: rest)) ->
  only_known (get_latest_homework py_lt (PyDict d)).
Proof.
  intros Hget. unfold get_latest_homework. cbn [py_getitem].
  rewrite Hget. cbn [bind py_iter].
  apply only_known_bind; [known|intros _].
  unfold sorted. cbn [py_iter bind].
  pose proof (only_known_mapM (fun h => py_getitem h "date_updated")
                (homework :: rest)
                (fun x => only_known_py_getitem x "date_updated")) as Hkeys.
  destruct (mapM _ (homework :: rest)) as [keys|] eqn:Hmap; [|exact Hkeys].
  cbn [bind].
  pose proof (only_known_stable_sort
                (rev (combine keys (homework :: rest)))) as Hsort.
  destruct (stable_sort py_lt _) as [s|] eqn:Hs; [|exact Hsort].
  cbn [bind].
  apply stable_sort_length in Hs. apply mapM_length in Hmap.
  rewrite length_rev, length_combine, Hmap, Nat.min_id in Hs.
  destruct (rev s) as [|y ys] eqn:Hrev.
  - apply (f_equal (@List.length _)) in Hrev.
    rewrite length_rev, Hs in Hrev. discriminate.
  - exact I.
Qed.

End KnownErrors.

(** ** The loop: what reaches the chat *)

Section Loop.

Variable py_lt : pyobj -> pyobj -> option bool.
Variable py_str : pyobj -> string.
Variables (cfg : config) (w : world).

(** The three kinds of status the first [try] can compute. *)
Lemma computed_status_forms (st st1 : io_state) (s : string) :
  compute_status py_lt py_str cfg w st = (Ok s, st1) ->
  (exists rest, s = "Изменился статус проверки работы " ++ rest)
  \/ (exists error, s = "Технические неполадки: " ++ exn_str error)
  \/ (exists error, s = "Неизвестный сбой в работе: " ++ exn_str error).
Proof.
  rewrite compute_status_eq. intros [= Hs _].
  destruct (fst (poll_status py_lt py_str cfg w st)) as [s'|error] eqn:Hpoll;
    cbn [status_of_outcome] in Hs.
  - injection Hs as <-. left. exact (poll_status_prefix _ _ _ _ _ Hpoll).
  - destruct (isinstance_any error _).
    + injection Hs as <-. right. left. exists error. reflexivity.
    + destruct (isinstance error Exception); [|discriminate].
      injection Hs as <-. right. right. exists error. reflexivity.
Qed.

Lemma computed_status_nonempty (st st1 : io_state) (s : string) :
  compute_status py_lt py_str cfg w st = (Ok s, st1) -> s <> EmptyString.
Proof.
  intros Hc. destruct (computed_status_forms _ Hc)
    as [(rest & ->)|[(error & ->)|(error & ->)]]; discriminate.
Qed.

(** X11: no status is ever empty, so the first turn after start-up, which
    compares with the empty [previous_status], always hands its status to
    the bot. *)
Theorem first_turn_notifies (st st1 : io_state) (s : string) :
  check_tokens cfg = true ->
  TeleBot w (TELEGRAM_TOKEN cfg) = Ok tt ->
  compute_status py_lt py_str cfg w st = (Ok s, st1) ->
  s <> EmptyString
  /\ exists delivered,
       sent (snd (main py_lt py_str cfg w 1 st))
       = (sent st ++ [(s, delivered)])%list.
Proof.
  intros Hcfg Hbot Hc.
  pose proof (computed_status_nonempty _ Hc) as Hne. split; [exact Hne|].
  destruct (@cycle_attempt py_lt py_str cfg w EmptyString s st st1 Hc Hne)
    as (delivered & Hsent).
  exists delivered. unfold main, bindIO, liftIO. rewrite Hcfg, Hbot.
  cbn [negb loop]. unfold bindIO, retIO.
  destruct (cycle py_lt py_str cfg w EmptyString st) as [[s'|error] st'];
    exact Hsent.
Qed.

Lemma loop_steady_unchanged (s : string) :
  steady py_lt py_str cfg w s ->
  forall n st,
    fst (loop py_lt py_str cfg w n s st) = Ok s
    /\ sent (snd (loop py_lt py_str cfg w n s st)) = sent st.
Proof.
  intros Hsteady. induction n as [|n IH]; intros st; [split; reflexivity|].
  cbn [loop]. unfold bindIO.
  pose proof (Hsteady st) as Hs.
  pose proof (compute_status_state py_lt py_str cfg w st) as Hst.
  destruct (compute_status py_lt py_str cfg w st) as [r st1] eqn:Hc.
  cbn [fst snd] in Hs, Hst. subst r st1.
  rewrite (@cycle_unchanged py_lt py_str cfg w s st _ Hc).
  destruct (IH (after_sleep RETRY_PERIOD (after_request st))) as [Hres Hsent].
  split; [exact Hres|]. rewrite Hsent. reflexivity.
Qed.

(** X12: while every turn computes the same status and the bot delivers
    it, that status reaches the chat once, in the first turn, however many
    turns follow. *)
Theorem steady_status_sent_once (s : string) :
  check_tokens cfg = true ->
  TeleBot w (TELEGRAM_TOKEN cfg) = Ok tt ->
  steady py_lt py_str cfg w s ->
  delivers cfg w s ->
  forall n st,
    fst (main py_lt py_str cfg w (S n) st) = Ok s
    /\ sent (snd (main py_lt py_str cfg w (S n) st))
       = (sent st ++ [(s, true)])%list.
Proof.
  intros Hcfg Hbot Hsteady Hdelivers n st.
  unfold main, bindIO, liftIO. rewrite Hcfg, Hbot. cbn [negb loop].
  unfold bindIO.
  pose proof (Hsteady st) as Hs.
  pose proof (compute_status_state py_lt py_str cfg w st) as Hst.
  destruct (compute_status py_lt py_str cfg w st) as [r st1] eqn:Hc.
  cbn [fst snd] in Hs, Hst. subst r st1.
  pose proof (computed_status_nonempty _ Hc) as Hne.
  rewrite (@cycle_eq py_lt py_str cfg w EmptyString s st _ Hc).
  rewrite (@notify_delivered cfg w EmptyString s (after_request st) Hne
             (Hdelivers _)).
  destruct (loop_steady_unchanged Hsteady n
              (after_sleep RETRY_PERIOD
                 (after_send s true (after_request st)))) as [Hres Hsent].
  split; [exact Hres|]. rewrite Hsent. reflexivity.
Qed.

Lemma cycle_bounds (previous_status : string) (st : io_state) :
  undisturbed w ->
  exists s' st' added,
    cycle py_lt py_str cfg w previous_status st = (Ok s', st')
    /\ sent st' = (sent st ++ added)%list
    /\ (List.length added <= 1)%nat
    /\ slept st' = slept st + RETRY_PERIOD.
Proof.
  intros Hw.
  destruct (@cycle_total py_lt py_str cfg w previous_status st Hw)
    as (s' & st' & Hcycle & _ & Hslept).
  destruct (@compute_status_total py_lt py_str cfg w st Hw) as (s & Hc).
  destruct (String.eqb_spec s previous_status) as [<-|Hneq].
  - rewrite (@cycle_unchanged py_lt py_str cfg w s st _ Hc) in Hcycle.
    injection Hcycle as <- <-.
    exists s, (after_sleep RETRY_PERIOD (after_request st)), [].
    rewrite (@cycle_unchanged py_lt py_str cfg w s st _ Hc).
    split; [reflexivity|]. split; [|split; [simpl; lia|assumption]].
    cbn [after_sleep after_request sent]. rewrite app_nil_r. reflexivity.
  - destruct (@cycle_attempt py_lt py_str cfg w previous_status s st _ Hc Hneq)
      as (delivered & Hsent).
    rewrite Hcycle in Hsent. cbn [snd] in Hsent.
    exists s', st', [(s, delivered)].
    split; [exact Hcycle|]. split; [assumption|].
    split; [simpl; lia|assumption].
Qed.

(** X13: in a world that raises errors only, [n] turns hand at most [n]
    texts to the bot, never take one back, and sleep [n] times the retry
    period of 600 seconds. *)
Theorem loop_bounds (n : nat) :
  undisturbed w ->
  forall previous_status st,
  exists added,
    sent (snd (loop py_lt py_str cfg w n previous_status st))
    = (sent st ++ added)%list
    /\ (List.length added <= n)%nat
    /\ slept (snd (loop py_lt py_str cfg w n previous_status st))
       = slept st + 600 * Z.of_nat n.
Proof.
  intros Hw. induction n as [|n IH]; intros previous_status st.
  - exists []. cbn [loop retIO snd]. rewrite app_nil_r.
    repeat split; [simpl; lia|lia].
  - destruct (cycle_bounds previous_status st Hw)
      as (s1 & st1 & added1 & Hcycle & Hsent1 & Hlen1 & Hslept1).
    destruct (IH s1 st1) as (added & Hsent & Hlen & Hslept).
    exists (added1 ++ added)%list. cbn [loop]. unfold bindIO.
    rewrite Hcycle, Hsent, Hsent1, Hslept, Hslept1, app_assoc, length_app.
    unfold RETRY_PERIOD. repeat split; lia.
Qed.

(** X14: what is no error is not held back.  When [requests.get] raises
    an exception that is no [Exception] (an interrupt), the turn ends with
    it before anything is sent or slept, and so does the loop; when the
    bot raises one, the turn ends with it after that one call. *)
Theorem interrupt_ends_loop (previous_status : string) (st : io_state)
    (error : exn) :
  isinstance error Exception = false ->
  (requests_get w (requests_made st) (api_request cfg 0) = Raise error ->
   forall n,
     loop py_lt py_str cfg w (S n) previous_status st
     = (Raise error, after_request st))
  /\ (forall s st1,
        compute_status py_lt py_str cfg w st = (Ok s, st1) ->
        s <> previous_status ->
        bot_send_message w (List.length (sent st1)) (TELEGRAM_CHAT_ID cfg) s
        = Raise error ->
        forall n,
          loop py_lt py_str cfg w (S n) previous_status st
          = (Raise error, after_send s false st1)).
Proof.
  intros Hcls. split.
  - intros Hget n.
    assert (Hapi : get_api_answer cfg w 0 st = (Raise error, after_request st)).
    { unfold get_api_answer, bindIO, try_exceptIO, io_requests_get.
      rewrite Hget. cbn [select_clause isinstance_any existsb].
      rewrite (not_error_not_RequestException _ Hcls). reflexivity. }
    assert (Hpoll : poll_status py_lt py_str cfg w st
                    = (Raise error, after_request st)).
    { unfold poll_status, bindIO. rewrite Hapi. reflexivity. }
    cbn [loop]. unfold bindIO, cycle, bindIO.
    rewrite compute_status_eq, Hpoll. cbn [fst status_of_outcome].
    change [UnexpectedResponseData; RequestError; TypeError; KeyError]
      with known_classes.
    rewrite (not_error_not_known _ Hcls), Hcls. reflexivity.
  - intros s st1 Hc Hneq Hbot n. cbn [loop]. unfold bindIO.
    rewrite (@cycle_eq py_lt py_str cfg w previous_status s st st1 Hc).
    rewrite (@notify_crashed cfg w previous_status s error st1 Hneq Hbot Hcls).
    reflexivity.
Qed.

(** X15: once [get_api_answer] has returned, whatever goes wrong in the
    validation, the choice of the homework or the rendering is an error of
    the known classes: the status is then the rendered text or a
    "Технические неполадки" one, never an "unknown failure". *)
Theorem fetched_answer_status (st st1 : io_state) (response : pyobj) :
  get_api_answer cfg w 0 st = (Ok response, st1) ->
  exists s,
    compute_status py_lt py_str cfg w st = (Ok s, st1)
    /\ ((exists homework,
           get_latest_homework py_lt response = Ok homework
           /\ parse_status py_str homework = Ok s)
        \/ (exists error,
              isinstance_any error known_classes = true
              /\ s = "Технические неполадки: " ++ exn_str error)).
Proof.
  intros Hapi.
  assert (Hst : st1 = after_request st).
  { pose proof (get_api_answer_state cfg w 0 st) as H. rewrite Hapi in H.
    exact H. }
  assert (Hpoll :
            fst (poll_status py_lt py_str cfg w st)
            = (_ <- check_response response ;;
               homework <- get_latest_homework py_lt response ;;
               parse_status py_str homework)).
  { unfold poll_status, bindIO, liftIO, retIO. rewrite Hapi.
    destruct (check_response response); [|reflexivity]. cbn [bind].
    destruct (get_latest_homework py_lt response) as [homework|];
      [|reflexivity].
    cbn [bind]. destruct (parse_status py_str homework); reflexivity. }
  rewrite compute_status_eq, Hpoll, <- Hst. clear Hpoll.
  pose proof (only_known_check_response response) as Hcheck.
  destruct (check_response response) as [[]|error] eqn:Hcr.
  - cbn [bind].
    apply check_response_ok_inv in Hcr.
    destruct Hcr as (d & homework & rest & -> & Hget).
    pose proof (only_known_get_latest_homework py_lt d Hget) as Hlatest.
    destruct (get_latest_homework py_lt (PyDict d)) as [latest|error] eqn:Hl.
    + cbn [bind].
      pose proof (only_known_parse_status py_str latest) as Hparse.
      destruct (parse_status py_str latest) as [s|error] eqn:Hp.
      * exists s. split; [reflexivity|]. left. exists latest. auto.
      * cbn [only_known] in Hparse. cbn [status_of_outcome].
        change [UnexpectedResponseData; RequestError; TypeError; KeyError]
          with known_classes.
        rewrite Hparse. eexists. split; [reflexivity|].
        right. exists error. auto.
    + cbn [only_known] in Hlatest. cbn [bind status_of_outcome].
      change [UnexpectedResponseData; RequestError; TypeError; KeyError]
        with known_classes.
      rewrite Hlatest. eexists. split; [reflexivity|].
      right. exists error. auto.
  - cbn [only_known] in Hcheck. cbn [bind status_of_outcome].
    change [UnexpectedResponseData; RequestError; TypeError; KeyError]
      with known_classes.
    rewrite Hcheck. eexists. split; [reflexivity|].
    right. exists error. auto.
Qed.

Lemma poll_status_api_error (st st1 : io_state) (error : exn) :
  get_api_answer cfg w 0 st = (Raise error, st1) ->
  poll_status py_lt py_str cfg w st = (Raise error, st1).
Proof. intros Hapi. unfold poll_status, bindIO. rewrite Hapi. reflexivity. Qed.

Lemma compute_status_api_error (st st1 : io_state) (error : exn) :
  get_api_answer cfg w 0 st = (Raise error, st1) ->
  compute_status py_lt py_str cfg w st
  = (status_of_outcome (Raise error), after_request st).
Proof.
  intros Hapi. rewrite compute_status_eq, (poll_status_api_error _ Hapi).
  reflexivity.
Qed.

(** X16: what the chat is told when fetching fails.  A transport failure,
    a listed status other than 200 and a body that does not decode are
    reported as "Технические неполадки" with the text of the
    [RequestError] or [UnexpectedResponseData]; a status code that
    [HTTPStatus] does not list is reported as "Неизвестный сбой в работе"
    with the text of the [ValueError]. *)
Theorem fetch_failure_status (st : io_state) :
  (forall cause,
     requests_get w (requests_made st) (api_request cfg 0) = Raise cause ->
     isinstance cause RequestException = true ->
     compute_status py_lt py_str cfg w st
     = (Ok ("Технические неполадки: "
            ++ "Ошибка при совершении запроса к API: " ++ exn_str cause),
        after_request st))
  /\ (forall r p,
        requests_get w (requests_made st) (api_request cfg 0) = Ok r ->
        status_phrase HTTPStatus_members (status_code r) = Some p ->
        status_code r <> 200 ->
        compute_status py_lt py_str cfg w st
        = (Ok ("Технические неполадки: "
               ++ "Статус ответа: " ++ str_of_int (status_code r) ++ " " ++ p
               ++ ". " ++ "Полный текст: " ++ text r),
           after_request st))
  /\ (forall r,
        requests_get w (requests_made st) (api_request cfg 0) = Ok r ->
        status_phrase HTTPStatus_members (status_code r) = None ->
        compute_status py_lt py_str cfg w st
        = (Ok ("Неизвестный сбой в работе: "
               ++ str_of_int (status_code r) ++ " is not a valid HTTPStatus"),
           after_request st))
  /\ (forall r cause,
        requests_get w (requests_made st) (api_request cfg 0) = Ok r ->
        status_code r = 200 ->
        json r = Raise cause ->
        isinstance cause ValueError = true ->
        compute_status py_lt py_str cfg w st
        = (Ok ("Технические неполадки: "
               ++ "Не удалось распарсить ответ: " ++ exn_str cause),
           after_request st)).
Proof.
  split; [|split; [|split]].
  - intros cause Hget Hcls.
    rewrite (compute_status_api_error st
               (get_api_answer_transport cfg w 0 st Hget Hcls)).
    reflexivity.
  - intros r p Hget Hp Hcode.
    rewrite (compute_status_api_error st
               (get_api_answer_bad_status cfg w 0 st Hget Hp Hcode)).
    reflexivity.
  - intros r Hget Hp.
    rewrite (compute_status_api_error st
               (get_api_answer_unregistered cfg w 0 st Hget Hp)).
    reflexivity.
  - intros r cause Hget Hcode Hjson Hcls.
    rewrite (compute_status_api_error st
               (get_api_answer_not_json cfg w 0 st Hget Hcode Hjson Hcls)).
    reflexivity.
Qed.

Lemma compute_status_fetched (st : io_state) (r : Response)
    (decoded : pyobj) :
  requests_get w (requests_made st) (api_request cfg 0) = Ok r ->
  status_code r = 200 ->
  json r = Ok decoded ->
  compute_status py_lt py_str cfg w st
  = (status_of_outcome
       (_ <- check_response decoded ;;
        homework <- get_latest_homework py_lt decoded ;;
        parse_status py_str homework),
     after_request st).
Proof.
  intros Hget Hcode Hjson. rewrite compute_status_eq. f_equal. f_equal.
  unfold poll_status, bindIO, liftIO, retIO.
  rewrite (get_api_answer_ok_status cfg w 0 st Hget Hcode), Hjson.
  destruct (check_response decoded); [|reflexivity]. cbn [bind].
  destruct (get_latest_homework py_lt decoded) as [homework|]; [|reflexivity].
  cbn [bind]. destruct (parse_status py_str homework); reflexivity.
Qed.

(** X17: what the chat is told when a decoded answer is rejected.  An
    answer that is no [dict], one without the key [homeworks] and one with
    an empty list are each reported as "Технические неполадки" with the
    message of [check_response]; the message of the [KeyError] comes
    between single quotes, as [str] of a [KeyError] gives it. *)
Theorem rejected_answer_status (st : io_state) (r : Response)
    (decoded : pyobj) :
  requests_get w (requests_made st) (api_request cfg 0) = Ok r ->
  status_code r = 200 ->
  json r = Ok decoded ->
  (isinstance_dict decoded = false ->
   compute_status py_lt py_str cfg w st
   = (Ok ("Технические неполадки: "
          ++ "Тип данных ответа отличается от dict"),
      after_request st))
  /\ (forall d,
        decoded = PyDict d -> dict_get d "homeworks" = None ->
        compute_status py_lt py_str cfg w st
        = (Ok ("Технические неполадки: " ++ squote
               ++ "В ответе отсутствует ключ со списком работ" ++ squote),
           after_request st))
  /\ (forall d,
        decoded = PyDict d -> dict_get d "homeworks" = Some (PyList []) ->
        compute_status py_lt py_str cfg w st
        = (Ok ("Технические неполадки: "
               ++ "API вернула пустой список домашних работ: "
               ++ "ни одна работа пока не взята на проверку"),
           after_request st)).
Proof.
  intros Hget Hcode Hjson.
  rewrite (compute_status_fetched st Hget Hcode Hjson).
  unfold check_response. split; [|split].
  - intros ->. reflexivity.
  - intros d -> Hd. cbn [isinstance_dict negb py_contains bind].
    unfold dict_has. rewrite Hd. reflexivity.
  - intros d -> Hd. cbn [isinstance_dict negb py_contains py_getitem bind].
    unfold dict_has. rewrite Hd. reflexivity.
Qed.

(** X18: the text a turn leaves in [previous_status] is the status it
    computed or, after a failed call of the bot, the failure text: since
    [send_message] turns every error into [MessageNotSent], the second
    handler of the second [try] never supplies it. *)
Theorem cycle_leaves_status_or_failure (previous_status s s' : string)
    (st st1 st2 : io_state) :
  compute_status py_lt py_str cfg w st = (Ok s, st1) ->
  cycle py_lt py_str cfg w previous_status st = (Ok s', st2) ->
  (s' = s
   /\ (st2 = after_sleep RETRY_PERIOD st1
       \/ st2 = after_sleep RETRY_PERIOD (after_send s true st1)))
  \/ (exists cause,
        isinstance cause Exception = true
        /\ s' = "Не удалось отправить сообщение: "
                ++ "Ошибка при отправке: " ++ exn_str cause
        /\ st2 = after_sleep RETRY_PERIOD (after_send s false st1)).
Proof.
  intros Hc Hcycle.
  rewrite (@cycle_eq py_lt py_str cfg w previous_status s st st1 Hc) in Hcycle.
  destruct (String.eqb_spec s previous_status) as [<-|Hneq].
  - rewrite notify_unchanged in Hcycle. injection Hcycle as <- <-.
    left. split; [reflexivity|left; reflexivity].
  - destruct (bot_send_message w (List.length (sent st1))
                (TELEGRAM_CHAT_ID cfg) s) as [[]|cause] eqn:Hbot.
    + rewrite (@notify_delivered cfg w previous_status s st1 Hneq Hbot)
        in Hcycle.
      injection Hcycle as <- <-. left. split; [reflexivity|right; reflexivity].
    + destruct (isinstance cause Exception) eqn:Hcls.
      * rewrite (@notify_failed cfg w previous_status s cause st1 Hneq Hbot
                   Hcls) in Hcycle.
        injection Hcycle as <- <-. right. exists cause.
        split; [exact Hcls|]. split; reflexivity.
      * rewrite (@notify_crashed cfg w previous_status s cause st1 Hneq Hbot
                   Hcls) in Hcycle.
        discriminate.
Qed.

End Loop.

(** ** The further properties on the sample data *)

Lemma steady_good_world :
  steady sample_lt sample_str sample_cfg good_world sample_status.
Proof. intros st. reflexivity. Qed.

Lemma delivers_good_world : delivers sample_cfg good_world sample_status.
Proof. intros k. reflexivity. Qed.

Lemma transport_failure_wrapped_witness :
  get_api_answer sample_cfg (failing_world timed_out) 0 initial
  = (Raise (mk_exn RequestError
              ("Ошибка при совершении запроса к API: " ++ "Read timed out.")),
     after_request initial).
Proof.
  apply (@transport_failure_wrapped sample_cfg (failing_world timed_out) 0
           initial timed_out).
  - reflexivity.
  - right. right. left. reflexivity.
Defined.

Lemma undecodable_body_wrapped_witness :
  get_api_answer sample_cfg bad_body_world 0 initial
  = (Raise (mk_exn UnexpectedResponseData
              ("Не удалось распарсить ответ: " ++ exn_str undecodable)),
     after_request initial).
Proof.
  apply (@undecodable_body_wrapped sample_cfg bad_body_world 0 initial
           (mk_response 200 "<html>" not_json) undecodable).
  - reflexivity.
  - reflexivity.
  - reflexivity.
  - right. left. reflexivity.
Defined.

Lemma get_latest_homework_ok_inv_witness :
  exists d items,
    sample_answer = PyDict d
    /\ dict_get d "homeworks" = Some (PyList items)
    /\ Forall has_date items
    /\ In hw2 items.
Proof.
  apply (@get_latest_homework_ok_inv sample_lt sample_answer hw2).
  reflexivity.
Defined.

Lemma get_latest_homework_empty_witness :
  get_latest_homework sample_lt (PyDict empty_answer)
  = Raise (mk_exn IndexError "list index out of range").
Proof.
  apply (@get_latest_homework_empty sample_lt empty_answer). reflexivity.
Defined.

Lemma get_latest_homework_single_witness :
  get_latest_homework sample_lt (PyDict single_answer)
  = Ok (PyDict numbered_item).
Proof.
  apply (@get_latest_homework_single sample_lt single_answer numbered_item
           (PyInt 1700000000));
    reflexivity.
Defined.

Lemma get_latest_homework_incomparable_witness :
  exists error,
    get_latest_homework sample_lt (PyDict mixed_answer) = Raise error
    /\ exn_class error = TypeError.
Proof.
  apply (@get_latest_homework_incomparable sample_lt mixed_answer dated_item
           dateless_item (PyStr "2023-01-01") PyNone);
    reflexivity.
Defined.

Lemma parse_status_ok_inv_witness :
  exists d name status verdict,
    hw1 = PyDict d
    /\ dict_get d "homework_name" = Some name
    /\ dict_get d "status" = Some (PyStr status)
    /\ verdict_of HOMEWORK_VERDICTS status = Some verdict
    /\ hw1_status = "Изменился статус проверки работы " ++ dquote
                    ++ sample_str name ++ dquote ++ ". " ++ verdict.
Proof.
  apply (@parse_status_ok_inv sample_str hw1 hw1_status). reflexivity.
Defined.

Lemma first_turn_notifies_witness :
  sample_status <> EmptyString
  /\ exists delivered,
       sent (snd (main sample_lt sample_str sample_cfg good_world 1 initial))
       = (sent initial ++ [(sample_status, delivered)])%list.
Proof.
  apply (@first_turn_notifies sample_lt sample_str sample_cfg good_world
           initial (after_request initial) sample_status);
    reflexivity.
Defined.

Lemma steady_status_sent_once_witness :
  fst (main sample_lt sample_str sample_cfg good_world 5 initial)
  = Ok sample_status
  /\ sent (snd (main sample_lt sample_str sample_cfg good_world 5 initial))
     = (sent initial ++ [(sample_status, true)])%list.
Proof.
  apply (@steady_status_sent_once sample_lt sample_str sample_cfg good_world
           sample_status eq_refl eq_refl steady_good_world
           delivers_good_world 4%nat initial).
Defined.

Lemma loop_bounds_witness :
  exists added,
    sent (snd (loop sample_lt sample_str sample_cfg good_world 3 EmptyString
                 initial))
    = (sent initial ++ added)%list
    /\ (List.length added <= 3)%nat
    /\ slept (snd (loop sample_lt sample_str sample_cfg good_world 3
                     EmptyString initial))
       = slept initial + 600 * Z.of_nat 3.
Proof.
  apply (@loop_bounds sample_lt sample_str sample_cfg good_world 3%nat
           undisturbed_good_world EmptyString initial).
Defined.

Lemma interrupt_ends_loop_witness :
  loop sample_lt sample_str sample_cfg (failing_world interrupt) 3
    EmptyString initial
  = (Raise interrupt, after_request initial).
Proof.
  apply (proj1 (@interrupt_ends_loop sample_lt sample_str sample_cfg
                  (failing_world interrupt) EmptyString initial interrupt
                  eq_refl) eq_refl 2%nat).
Defined.

Lemma fetched_answer_status_witness :
  exists s,
    compute_status sample_lt sample_str sample_cfg good_world initial
    = (Ok s, after_request initial)
    /\ ((exists homework,
           get_latest_homework sample_lt sample_answer = Ok homework
           /\ parse_status sample_str homework = Ok s)
        \/ (exists error,
              isinstance_any error known_classes = true
              /\ s = "Технические неполадки: " ++ exn_str error)).
Proof.
  apply (@fetched_answer_status sample_lt sample_str sample_cfg good_world
           initial (after_request initial) sample_answer).
  reflexivity.
Defined.

Lemma rejected_answer_status_witness :
  compute_status sample_lt sample_str sample_cfg empty_world initial
  = (Ok ("Технические неполадки: "
         ++ "API вернула пустой список домашних работ: "
         ++ "ни одна работа пока не взята на проверку"),
     after_request initial).
Proof.
  apply (proj2 (proj2 (@rejected_answer_status sample_lt sample_str sample_cfg
                         empty_world initial
                         (mk_response 200 "{...}" (Ok (PyDict empty_answer)))
                         (PyDict empty_answer) eq_refl eq_refl eq_refl))
           empty_answer eq_refl eq_refl).
Defined.

Lemma cycle_leaves_status_or_failure_witness :
  (failure_status (mk_exn Exception "Bad Gateway") = sample_status
   /\ (after_sleep RETRY_PERIOD
         (after_send sample_status false (after_request initial))
       = after_sleep RETRY_PERIOD (after_request initial)
       \/ after_sleep RETRY_PERIOD
            (after_send sample_status false (after_request initial))
          = after_sleep RETRY_PERIOD
              (after_send sample_status true (after_request initial))))
  \/ (exists cause,
        isinstance cause Exception = true
        /\ failure_status (mk_exn Exception "Bad Gateway")
           = "Не удалось отправить сообщение: "
             ++ "Ошибка при отправке: " ++ exn_str cause
        /\ after_sleep RETRY_PERIOD
             (after_send sample_status false (after_request initial))
           = after_sleep RETRY_PERIOD
               (after_send sample_status false (after_request initial))).
Proof.
  apply (@cycle_leaves_status_or_failure sample_lt sample_str sample_cfg
           flaky_bot_world EmptyString sample_status
           (failure_status (mk_exn Exception "Bad Gateway"))
           initial (after_request initial)
           (after_sleep RETRY_PERIOD
              (after_send sample_status false (after_request initial))));
    reflexivity.
Defined.
